(** * nn.activations: forward/backward contract of the network layers

    A shallow embedding of [src/nn/activations.py]: the [Activation]
    interface and its four implementations [Linear], [Sigmoid], [Tanh] and
    [ReLU], over a model of the NumPy operations the file calls.

    - Scalars are IEEE binary64 values (NumPy's default [float64]), taken
      from the primitive floats of the standard library.  [np.exp] is a
      parameter ([Libm]).
    - Arrays are NumPy arrays of rank at most two, the batch x features
      convention of the layers; an array is a value, since no method of
      the file writes into an array it was given or has stored.
    - A Python method that assigns to attributes of [self] and returns or
      raises becomes a function from the object's state to its next state
      and an outcome.  An attribute assigned before a later statement
      raises stays assigned.
    - [np.dot] and [np.sum] add up their terms in an order and grouping
      that the library chooses (BLAS kernels, pairwise summation), and a
      product may be fused with the addition that consumes it.  That
      choice is a parameter ([Summation]): every element is computed by a
      summation plan that uses each term exactly once, and the properties
      below hold for every such choice.
    - Operators applied to [None] raise as in Python 3. *)

From Stdlib Require Import String.
From Stdlib Require Import List Arith Bool ZArith Lia Permutation.
From Stdlib Require Import Floats.
Import ListNotations.

Set Implicit Arguments.

(** ** Outcomes of a call *)

(** The exceptions the modelled operations can raise. *)
Inductive exn : Type :=
| ValueError      (* shapes not aligned / operands could not be broadcast *)
| AttributeError  (* 'NoneType' object has no attribute 'T' *)
| TypeError.      (* an arithmetic or comparison operator applied to None *)

Inductive result (A : Type) : Type :=
| Ok (a : A)
| Raise (e : exn).
Arguments Ok {A} a.
Arguments Raise {A} e.

Definition bind {A B : Type} (r : result A) (k : A -> result B) : result B :=
  match r with
  | Ok a => k a
  | Raise e => Raise e
  end.

Notation "x <- r ;; k" := (bind r (fun x => k))
  (at level 61, r at next level, right associativity).

Definition is_ok {A : Type} (r : result A) : bool :=
  match r with Ok _ => true | Raise _ => false end.


(** ** NumPy arrays of rank at most two *)

Module Np.

Open Scope float_scope.

(** The [shape] tuple of an array: [()], [(n,)] or [(r, c)]. *)
Inductive shape : Type :=
| Sh0
| Sh1 (n : nat)
| Sh2 (r c : nat).

(** An array carries its shape and its elements in row-major order.  A
    rank-one array's length is the length of its element list; a rank-two
    array records both dimensions, so that an array with no row still has
    a column count. *)
Inductive ndarray : Type :=
| Scalar (v : float)
| Vec (l : list float)
| Mat (r c : nat) (rows : list (list float)).

Definition shape_of (a : ndarray) : shape :=
  match a with
  | Scalar _ => Sh0
  | Vec l => Sh1 (length l)
  | Mat r c _ => Sh2 r c
  end.

(** The rows of a rank-two array are as many and as long as its shape says. *)
Definition wf (a : ndarray) : Prop :=
  match a with
  | Mat r c rows => length rows = r /\ Forall (fun row => length row = c) rows
  | _ => True
  end.

(** [a[i, j]], reading an array of lower rank as a single row. *)
Definition get (a : ndarray) (i j : nat) : float :=
  match a with
  | Scalar v => v
  | Vec l => nth j l 0
  | Mat _ _ rows => nth j (nth i rows []) 0
  end.

(** Number of rows and columns of an array read as a matrix. *)
Definition nrows (s : shape) : nat :=
  match s with Sh2 r _ => r | _ => 1 end.
Definition ncols (s : shape) : nat :=
  match s with Sh0 => 1 | Sh1 n => n | Sh2 _ c => c end.

(** The array of a given shape whose element at [(i, j)] is [g i j]. *)
Definition tabulate (s : shape) (g : nat -> nat -> float) : ndarray :=
  match s with
  | Sh0 => Scalar (g 0%nat 0%nat)
  | Sh1 n => Vec (map (g 0%nat) (seq 0 n))
  | Sh2 r c => Mat r c (map (fun i => map (g i) (seq 0 c)) (seq 0 r))
  end.

(** [np.zeros(shape)]. *)
Definition zeros (s : shape) : ndarray := tabulate s (fun _ _ => 0).

(** A unary ufunc, and an operator between an array and a Python scalar:
    the function is applied to every element and the shape is kept. *)
Definition umap (f : float -> float) (a : ndarray) : ndarray :=
  match a with
  | Scalar v => Scalar (f v)
  | Vec l => Vec (map f l)
  | Mat r c rows => Mat r c (map (map f) rows)
  end.

(** Broadcasting of one pair of dimensions: equal, or one of them is 1. *)
Definition bdim (n m : nat) : option nat :=
  if Nat.eqb n m then Some n
  else if Nat.eqb n 1 then Some m
  else if Nat.eqb m 1 then Some n
  else None.

(** Broadcasting of two shapes, aligned on their last dimension. *)
Definition broadcast_shapes (s t : shape) : option shape :=
  match s, t with
  | Sh0, _ => Some t
  | _, Sh0 => Some s
  | Sh1 n, Sh1 m => option_map Sh1 (bdim n m)
  | Sh1 n, Sh2 r c => option_map (Sh2 r) (bdim n c)
  | Sh2 r c, Sh1 n => option_map (Sh2 r) (bdim c n)
  | Sh2 r c, Sh2 r' c' =>
      match bdim r r', bdim c c' with
      | Some r'', Some c'' => Some (Sh2 r'' c'')
      | _, _ => None
      end
  end.

(** The element of [a] that position [(i, j)] of a broadcast result reads:
    a dimension of size 1 is repeated. *)
Definition bget (a : ndarray) (i j : nat) : float :=
  get a (if Nat.eqb (nrows (shape_of a)) 1 then 0%nat else i)
        (if Nat.eqb (ncols (shape_of a)) 1 then 0%nat else j).

(** A binary ufunc ([+], [*]) on two arrays: broadcast, or ValueError. *)
Definition binop (f : float -> float -> float) (a b : ndarray) : result ndarray :=
  match broadcast_shapes (shape_of a) (shape_of b) with
  | Some s => Ok (tabulate s (fun i j => f (bget a i j) (bget b i j)))
  | None => Raise ValueError
  end.

Definition add := binop PrimFloat.add.
Definition multiply := binop PrimFloat.mul.

(** *** Sums of many terms *)

(** The fused multiply-add [a * b + c] with a single rounding.  The exact
    product of two finite values is kept as an unrounded mantissa and
    exponent, and the addition rounds once; a product that is a zero, an
    infinity or a NaN is exact already. *)
Definition SFfma (x y z : spec_float) : spec_float :=
  match x, y with
  | S754_finite sx mx ex, S754_finite sy my ey =>
      match z with
      | S754_zero _ => SF64mul x y
      | _ => SF64add (S754_finite (xorb sx sy) (mx * my) (ex + ey)) z
      end
  | _, _ => SF64add (SF64mul x y) z
  end.

Definition fma (a b c : float) : float :=
  SF2Prim (SFfma (Prim2SF a) (Prim2SF b) (Prim2SF c)).

(** A summation plan: how the terms [t 0, ..., t (n-1)] of a sum are
    combined.  [Zero] is an accumulator cleared to 0.0, [Term k] is the
    k-th term, [Plus] adds two partial sums, and [Fused k p] adds the k-th
    term to the partial sum [p] in one operation (a fused multiply-add
    when the term is a product). *)
Inductive plan : Type :=
| Zero
| Term (k : nat)
| Plus (p q : plan)
| Fused (k : nat) (p : plan).

Fixpoint leaves (p : plan) : list nat :=
  match p with
  | Zero => []
  | Term k => [k]
  | Plus p q => leaves p ++ leaves q
  | Fused k p => k :: leaves p
  end.

(** A plan for [n] terms uses each of them exactly once. *)
Definition covers (p : plan) (n : nat) : Prop :=
  Permutation (leaves p) (seq 0 n).

Fixpoint eval (term : nat -> float) (fuse : nat -> float -> float)
    (p : plan) : float :=
  match p with
  | Zero => 0
  | Term k => term k
  | Plus p q => eval term fuse p + eval term fuse q
  | Fused k p => fuse k (eval term fuse p)
  end.

(** The sum of the products [a k * b k] by a plan. *)
Definition contract (p : plan) (a b : nat -> float) : float :=
  eval (fun k => a k * b k) (fun k acc => fma (a k) (b k) acc) p.

(** The sum of the values [x k] by a plan. *)
Definition accumulate (p : plan) (x : nat -> float) : float :=
  eval x (fun k acc => acc + x k) p.

(** The length of the first axis. *)
Definition axis0 (s : shape) : nat :=
  match s with Sh0 => 0 | Sh1 n => n | Sh2 r _ => r end.

(** The library's choice of plan: for [np.dot], by the shapes of the two
    operands and the position of the element computed; for [np.sum]
    along the first axis, by the shape of the operand and the position. *)
Class Summation : Type :=
  { dot_plan : shape -> shape -> nat -> nat -> plan;
    sum_plan : shape -> nat -> plan;
    dot_plan_covers :
      forall sa sb i j, covers (dot_plan sa sb i j) (ncols sa);
    sum_plan_covers :
      forall s j, covers (sum_plan s j) (axis0 s) }.

(** [a.T]: the axes reversed. *)
Definition transpose (a : ndarray) : ndarray :=
  match a with
  | Mat r c _ => tabulate (Sh2 c r) (fun i j => get a j i)
  | _ => a
  end.

Section WithSummation.
Context `{Summation}.

(** Element [(i, j)] of [np.dot(a, b)]: row [i] of [a] against column
    [j] of [b]. *)
Definition dot_element (a b : ndarray) (i j : nat) : float :=
  contract (dot_plan (shape_of a) (shape_of b) i j)
           (fun k => get a i k)
           (fun k => match b with
                     | Mat _ _ _ => get b k j
                     | _ => get b 0 k
                     end).

(** [np.dot(a, b)]: a scalar operand multiplies; otherwise the last axis of
    [a] is contracted with the first axis of [b], whose lengths must agree. *)
Definition dot (a b : ndarray) : result ndarray :=
  match a, b with
  | Scalar _, _ | _, Scalar _ => multiply a b
  | Vec x, Vec y =>
      if Nat.eqb (length x) (length y)
      then Ok (Scalar (dot_element a b 0 0))
      else Raise ValueError
  | Vec x, Mat r c _ =>
      if Nat.eqb (length x) r
      then Ok (tabulate (Sh1 c) (fun _ j => dot_element a b 0 j))
      else Raise ValueError
  | Mat r c _, Vec y =>
      if Nat.eqb c (length y)
      then Ok (Vec (map (fun i => dot_element a b i 0) (seq 0 r)))
      else Raise ValueError
  | Mat r c _, Mat r' c' _ =>
      if Nat.eqb c r'
      then Ok (tabulate (Sh2 r c') (fun i j => dot_element a b i j))
      else Raise ValueError
  end.

(** Element [j] of [np.sum(a, 0)]. *)
Definition sum0_element (a : ndarray) (j : nat) : float :=
  accumulate (sum_plan (shape_of a) j)
             (fun i => match a with
                       | Mat _ _ _ => get a i j
                       | _ => get a 0 i
                       end).

(** [np.sum(a, 0)]: the sum along the first axis; the result has one axis
    fewer than [a].  A rank-zero array is returned as it is. *)
Definition sum0 (a : ndarray) : result ndarray :=
  match a with
  | Scalar v => Ok (Scalar v)
  | Vec l => Ok (Scalar (sum0_element a 0))
  | Mat r c _ => Ok (tabulate (Sh1 c) (fun _ j => sum0_element a j))
  end.

End WithSummation.

(** [np.maximum(a, b)] on one pair of elements: the first operand when it
    is greater than the second or is a NaN, the second otherwise (so
    [np.maximum(0, -0.0)] is [-0.0]). *)
Definition fmaximum (a b : float) : float :=
  if (b <? a) || is_nan a then a else b.

(** [np.asarray(a >= 0, np.float)]: 1.0 where the comparison holds, 0.0
    elsewhere ([np.float] being the alias of the built-in [float]). *)
Definition indicator_ge0 (v : float) : float :=
  if 0 <=? v then 1 else 0.

End Np.


Import Np.

(** ** External collaborators *)

(** [np.exp] on one element.  IEEE 754 does not fix the result of the
    exponential, so the layers are parameterised by it. *)
Class Libm : Type := { np_exp : float -> float }.

(** [nn.weights.initialise_weights(shape, method)], which this file only
    calls: any function from the requested shape and method tag to an
    array. *)
Class Initialiser : Type :=
  { initialise_weights : nat * nat -> string -> ndarray }.

(** ** The [Activation] interface *)

(** A method call on an object of state [L] yields the object's next state
    together with the returned array or the raised exception. *)
Class Activation (L : Type) : Type :=
  { trainable : L -> bool;
    forward : L -> ndarray -> L * result ndarray;
    backward : L -> ndarray -> L * result ndarray }.

(** ** Linear layer *)

Module Linear.

Record t : Type := mk
  { weights : ndarray;
    biases : ndarray;
    _cached_activations : option ndarray;
    _weight_gradients : ndarray;
    _bias_gradients : ndarray }.

Definition set_cached_activations (self : t) (v : ndarray) : t :=
  mk (weights self) (biases self) (Some v)
     (_weight_gradients self) (_bias_gradients self).

Definition set_weight_gradients (self : t) (v : ndarray) : t :=
  mk (weights self) (biases self) (_cached_activations self)
     v (_bias_gradients self).

Definition set_bias_gradients (self : t) (v : ndarray) : t :=
  mk (weights self) (biases self) (_cached_activations self)
     (_weight_gradients self) v.

Definition __init__ `{Initialiser} (in_size out_size : nat)
    (initialisation_method : string) : t :=
  let w := initialise_weights (in_size, out_size) initialisation_method in
  let b := zeros (Sh2 1 out_size) in
  mk w b None (zeros (shape_of w)) (zeros (shape_of b)).

(** The default value of [initialisation_method]. *)
Definition default_method : string := "xavier-average".

Definition trainable (self : t) : bool := true.

(** [self._cached_activations.T], an attribute access that fails on None. *)
Definition cached_T (self : t) : result ndarray :=
  match _cached_activations self with
  | None => Raise AttributeError
  | Some a => Ok (transpose a)
  end.

Section WithSummation.
Context `{Summation}.

Definition forward (self : t) (x : ndarray) : t * result ndarray :=
  match xw <- dot x (weights self) ;; add xw (biases self) with
  | Raise e => (self, Raise e)
  | Ok activations =>
      (set_cached_activations self activations, Ok activations)
  end.

Definition backward (self : t) (error : ndarray) : t * result ndarray :=
  match sum0 error with
  | Raise e => (self, Raise e)
  | Ok bg =>
      let self1 := set_bias_gradients self bg in
      match aT <- cached_T self1 ;; dot aT error with
      | Raise e => (self1, Raise e)
      | Ok wg =>
          let self2 := set_weight_gradients self1 wg in
          (self2, dot error (transpose (weights self2)))
      end
  end.

End WithSummation.

End Linear.

#[export] Instance Linear_Activation `{Summation} : Activation Linear.t :=
  {| trainable := Linear.trainable;
     forward := Linear.forward;
     backward := Linear.backward |}.

(** ** Logistic sigmoid *)

Module Sigmoid.

Record t : Type := mk { cached_input : option ndarray }.

Definition __init__ : t := mk None.

Section WithExp.
Context `{Libm}.
Open Scope float_scope.

(** One element of [1 / (1 + np.exp(-x))]. *)
Definition sigmoid1 (v : float) : float := 1 / (1 + np_exp (- v)).

Definition _sigmoid (x : ndarray) : ndarray := umap sigmoid1 x.

(** [_sigmoid] applied to the cache: the unary minus fails on None. *)
Definition _sigmoid_cached (self : t) : result ndarray :=
  match cached_input self with
  | None => Raise TypeError
  | Some x => Ok (_sigmoid x)
  end.

Definition trainable (self : t) : bool := false.

Definition forward (self : t) (x : ndarray) : t * result ndarray :=
  (mk (Some x), Ok (_sigmoid x)).

Definition backward (self : t) (error : ndarray) : t * result ndarray :=
  (self,
   s1 <- _sigmoid_cached self ;;
   s2 <- _sigmoid_cached self ;;
   derivative <- multiply s1 (umap (fun v => 1 - v) s2) ;;
   multiply error derivative).

End WithExp.
End Sigmoid.

#[export] Instance Sigmoid_Activation `{Libm} : Activation Sigmoid.t :=
  {| trainable := Sigmoid.trainable;
     forward := Sigmoid.forward;
     backward := Sigmoid.backward |}.

(** ** Hyperbolic tangent *)

Module Tanh.

Record t : Type := mk { _cached_input : option ndarray }.

Definition __init__ : t := mk None.

Section WithExp.
Context `{Libm}.
Open Scope float_scope.

(** One element of [-1 + 2 / (1 + np.exp(-2 * x))]. *)
Definition tanh1 (v : float) : float := -1 + 2 / (1 + np_exp (-2 * v)).

Definition _tanh (x : ndarray) : ndarray := umap tanh1 x.

(** [_tanh] applied to the cache: the product [-2 * None] fails. *)
Definition _tanh_cached (self : t) : result ndarray :=
  match _cached_input self with
  | None => Raise TypeError
  | Some x => Ok (_tanh x)
  end.

Definition trainable (self : t) : bool := false.

Definition forward (self : t) (x : ndarray) : t * result ndarray :=
  (mk (Some x), Ok (_tanh x)).

(** [error * (1 - self._tanh(self._cached_input) ** 2)]; the power with
    the constant exponent 2 squares each element. *)
Definition backward (self : t) (error : ndarray) : t * result ndarray :=
  (self,
   th <- _tanh_cached self ;;
   multiply error (umap (fun v => 1 - v) (umap (fun v => v * v) th))).

End WithExp.
End Tanh.

#[export] Instance Tanh_Activation `{Libm} : Activation Tanh.t :=
  {| trainable := Tanh.trainable;
     forward := Tanh.forward;
     backward := Tanh.backward |}.

(** ** Rectified linear unit *)

Module ReLU.

Record t : Type := mk { cached_input : option ndarray }.

Definition __init__ : t := mk None.

Definition trainable (self : t) : bool := false.

Definition forward (self : t) (x : ndarray) : t * result ndarray :=
  (mk (Some x), Ok (umap (fmaximum 0) x)).

(** [self.cached_input >= 0] fails on None; otherwise the comparison is
    converted to an array of 1.0 and 0.0. *)
Definition cached_ge0 (self : t) : result ndarray :=
  match cached_input self with
  | None => Raise TypeError
  | Some x => Ok (umap indicator_ge0 x)
  end.

Definition backward (self : t) (error : ndarray) : t * result ndarray :=
  (self, ind <- cached_ge0 self ;; multiply error ind).

End ReLU.

#[export] Instance ReLU_Activation : Activation ReLU.t :=
  {| trainable := ReLU.trainable;
     forward := ReLU.forward;
     backward := ReLU.backward |}.

(** ** Any layer *)

(** The closed set of layer variants behind the one interface. *)
Inductive layer : Type :=
| LinearL (l : Linear.t)
| SigmoidL (l : Sigmoid.t)
| TanhL (l : Tanh.t)
| ReLUL (l : ReLU.t).

Definition lift {L : Type} (inj : L -> layer) (p : L * result ndarray)
  : layer * result ndarray :=
  (inj (fst p), snd p).

#[export] Instance layer_Activation `{Libm} `{Summation} : Activation layer :=
  {| trainable l :=
       match l with
       | LinearL s => trainable s
       | SigmoidL s => trainable s
       | TanhL s => trainable s
       | ReLUL s => trainable s
       end;
     forward l x :=
       match l with
       | LinearL s => lift LinearL (forward s x)
       | SigmoidL s => lift SigmoidL (forward s x)
       | TanhL s => lift TanhL (forward s x)
       | ReLUL s => lift ReLUL (forward s x)
       end;
     backward l e :=
       match l with
       | LinearL s => lift LinearL (backward s e)
       | SigmoidL s => lift SigmoidL (backward s e)
       | TanhL s => lift TanhL (backward s e)
       | ReLUL s => lift ReLUL (backward s e)
       end |}.

(** The cache a layer holds between [forward] and [backward]. *)
Definition cache_of (l : layer) : option ndarray :=
  match l with
  | LinearL s => Linear._cached_activations s
  | SigmoidL s => Sigmoid.cached_input s
  | TanhL s => Tanh._cached_input s
  | ReLUL s => ReLU.cached_input s
  end.

(** A sequence of method calls made on one object, in order. *)
Inductive call : Type :=
| Forward (x : ndarray)
| Backward (error : ndarray).

Definition step {L : Type} `{Activation L} (self : L) (c : call) : L :=
  match c with
  | Forward x => fst (forward self x)
  | Backward e => fst (backward self e)
  end.

Definition run {L : Type} `{Activation L} (self : L) (cs : list call) : L :=
  fold_left step cs self.

(** ** Two summations

    Two choices the library could make, used to run the layers on
    numbers: adding the terms one by one from a cleared accumulator,
    with every product rounded before it is added, and the same with
    every product fused into the addition. *)

Module Chain.

Fixpoint plain (n : nat) : plan :=
  match n with
  | O => Zero
  | S m => Plus (plain m) (Term m)
  end.

Fixpoint fused (n : nat) : plan :=
  match n with
  | O => Zero
  | S m => Fused m (fused m)
  end.

Lemma leaves_plain (n : nat) : leaves (plain n) = seq 0 n.
Proof.
  induction n as [|m IH]; [reflexivity|].
  cbn [plain leaves]. now rewrite IH, seq_S.
Qed.

Lemma covers_plain (n : nat) : covers (plain n) n.
Proof. unfold covers. rewrite leaves_plain. apply Permutation_refl. Qed.

Lemma covers_fused (n : nat) : covers (fused n) n.
Proof.
  unfold covers. induction n as [|m IH]; [apply Permutation_refl|].
  cbn [fused leaves]. rewrite seq_S. cbn [Nat.add].
  apply Permutation_cons_app. now rewrite app_nil_r.
Qed.

End Chain.

Module Sequential.

#[export] Instance summation : Summation :=
  {| dot_plan := fun sa _ _ _ => Chain.plain (ncols sa);
     sum_plan := fun s _ => Chain.plain (axis0 s);
     dot_plan_covers := fun sa _ _ _ => Chain.covers_plain (ncols sa);
     sum_plan_covers := fun s _ => Chain.covers_plain (axis0 s) |}.

End Sequential.

Module FusedSequential.

#[export] Instance summation : Summation :=
  {| dot_plan := fun sa _ _ _ => Chain.fused (ncols sa);
     sum_plan := fun s _ => Chain.plain (axis0 s);
     dot_plan_covers := fun sa _ _ _ => Chain.covers_fused (ncols sa);
     sum_plan_covers := fun s _ => Chain.covers_plain (axis0 s) |}.

End FusedSequential.

(** ** Running example

    The layer of the end-to-end scenario: two inputs, one output, weights
    [[1.0], [2.0]] and zero bias. *)

Module Scenario.
Open Scope float_scope.

#[export] Instance fixed_weights : Initialiser :=
  {| initialise_weights := fun _ _ => Mat 2 1 [[1]; [2]] |}.

Definition dense : Linear.t := Linear.__init__ 2 1 Linear.default_method.
Definition x : ndarray := Mat 1 2 [[1; 1]].
Definition error : ndarray := Mat 1 1 [[1]].

Definition after_forward `{Summation} : Linear.t := fst (forward dense x).
Definition after_backward `{Summation} : Linear.t :=
  fst (backward after_forward error).

End Scenario.

(** ** Results in closed form *)

Section ClosedForms.
Context `{Summation}.
Open Scope float_scope.

(** What [forward] computes on a batch of matching width. *)
Definition affine (in_size out_size batch : nat) (W B X : list (list float))
  : ndarray :=
  tabulate (Sh2 batch out_size)
    (fun i j =>
       contract (dot_plan (Sh2 batch in_size) (Sh2 in_size out_size) i j)
                (fun k => nth k (nth i X []) 0)
                (fun k => nth j (nth k W []) 0)
       + nth j (nth 0 B []) 0).

(** The three results of [backward] on arrays of matching shapes. *)
Definition column_sums (batch out_size : nat) (E : list (list float)) : ndarray :=
  tabulate (Sh1 out_size)
    (fun _ j =>
       accumulate (sum_plan (Sh2 batch out_size) j)
                  (fun i => nth j (nth i E []) 0)).

Definition outputT_dot_error (batch out_size : nat) (Y E : list (list float))
  : ndarray :=
  tabulate (Sh2 out_size out_size)
    (fun i j =>
       contract (dot_plan (Sh2 out_size batch) (Sh2 batch out_size) i j)
                (fun k => nth i (nth k Y []) 0)
                (fun k => nth j (nth k E []) 0)).

Definition error_dot_weightsT (in_size out_size batch : nat)
    (W E : list (list float)) : ndarray :=
  tabulate (Sh2 batch in_size)
    (fun i j =>
       contract (dot_plan (Sh2 batch out_size) (Sh2 out_size in_size) i j)
                (fun k => nth k (nth i E []) 0)
                (fun k => nth k (nth j W []) 0)).

(** What [Linear.forward] computes on one unbatched sample (a rank-one
    array): a single row. *)
Definition affine_row (in_size out_size : nat) (W B : list (list float))
    (x : list float) : ndarray :=
  tabulate (Sh2 1 out_size)
    (fun _ j =>
       contract (dot_plan (Sh1 (length x)) (Sh2 in_size out_size) 0 j)
                (fun k => nth k x 0)
                (fun k => nth j (nth k W []) 0)
       + nth j (nth 0 B []) 0).

(** The weight gradient a Linear [backward] stores for a cache of shape
    (batch, out_size) and an error of shape (batch, width). *)
Definition outputT_dot_wide_error (batch out_size width : nat)
    (Y E : list (list float)) : ndarray :=
  tabulate (Sh2 out_size width)
    (fun i j =>
       contract (dot_plan (Sh2 out_size batch) (Sh2 batch width) i j)
                (fun k => nth i (nth k Y []) 0)
                (fun k => nth j (nth k E []) 0)).

End ClosedForms.

Section ElementwiseClosedForms.
Open Scope float_scope.

(** What the element-wise layers return on an error of the shape of the
    cached input [x]. *)
Definition sigmoid_gradient `{Libm} (x error : ndarray) : ndarray :=
  tabulate (shape_of x)
    (fun i j =>
       get error i j
       * (Sigmoid.sigmoid1 (get x i j) * (1 - Sigmoid.sigmoid1 (get x i j)))).

Definition tanh_gradient `{Libm} (x error : ndarray) : ndarray :=
  tabulate (shape_of x)
    (fun i j =>
       get error i j * (1 - Tanh.tanh1 (get x i j) * Tanh.tanh1 (get x i j))).

Definition relu_gradient (x error : ndarray) : ndarray :=
  tabulate (shape_of x) (fun i j => get error i j * indicator_ge0 (get x i j)).

End ElementwiseClosedForms.

(** The layers without parameters, which act element by element. *)
Definition elementwise (l : layer) : bool :=
  match l with
  | LinearL _ => false
  | _ => true
  end.

(** What a successful [forward] leaves in the cache: its input for the
    element-wise layers, its output for the Linear layer. *)
Definition cached_by (l : layer) (x y : ndarray) : ndarray :=
  if elementwise l then x else y.

(** A sequence of calls that never calls [forward]. *)
Definition only_backward (cs : list call) : bool :=
  forallb (fun c => match c with Backward _ => true | Forward _ => false end) cs.

(** ** A stand-in for [np.exp]

    The properties below hold for every exponential.  To run a layer on
    concrete numbers one is needed: the partial sums of the power series,
    which is not the libm function. *)

Module SeriesExp.
Open Scope float_scope.

Fixpoint exp_terms (n : nat) (x term acc k : float) : float :=
  match n with
  | O => acc
  | S n' =>
      let term' := term * x / k in
      exp_terms n' x term' (acc + term') (k + 1)
  end.

Definition exp (x : float) : float := exp_terms 40 x 1 1 1.

#[export] Instance libm : Libm := {| np_exp := exp |}.

End SeriesExp.

(** The series exponential between the arguments where binary64 [exp]
    overflows and underflows, +inf above and 0.0 below: a stand-in with
    the saturation of the libm function, for running the layers on
    extreme inputs. *)
Module ClampedExp.
Open Scope float_scope.

Definition exp (x : float) : float :=
  if x <? -746 then 0
  else if 710 <? x then infinity
  else SeriesExp.exp x.

#[export] Instance libm : Libm := {| np_exp := exp |}.

End ClampedExp.

(** * Properties *)

(** ** Facts about the array operations *)

Section ArrayFacts.
Open Scope float_scope.

Lemma nth_map_seq (A : Type) (f : nat -> A) (n i : nat) (d : A) :
  (i < n)%nat -> nth i (map f (seq 0 n)) d = f i.
Proof.
  intros Hi.
  rewrite (nth_indep _ d (f 0%nat)) by (rewrite length_map, length_seq; exact Hi).
  rewrite (map_nth f (seq 0 n) 0%nat i), seq_nth by exact Hi.
  reflexivity.
Qed.

Lemma shape_tabulate (s : shape) (g : nat -> nat -> float) :
  shape_of (tabulate s g) = s.
Proof.
  destruct s; simpl; try reflexivity.
  now rewrite length_map, length_seq.
Qed.

Lemma wf_tabulate (s : shape) (g : nat -> nat -> float) : wf (tabulate s g).
Proof.
  destruct s as [|n|r c]; simpl; auto.
  split.
  - now rewrite length_map, length_seq.
  - apply Forall_forall. intros row Hrow.
    apply in_map_iff in Hrow. destruct Hrow as [i [<- _]].
    now rewrite length_map, length_seq.
Qed.

Lemma get_tabulate2 (r c : nat) (g : nat -> nat -> float) (i j : nat) :
  (i < r)%nat -> (j < c)%nat -> get (tabulate (Sh2 r c) g) i j = g i j.
Proof.
  intros Hi Hj. simpl.
  rewrite (nth_map_seq (fun i => map (g i) (seq 0 c)) [] Hi).
  now apply nth_map_seq.
Qed.

Lemma get_tabulate1 (n : nat) (g : nat -> nat -> float) (i j : nat) :
  (j < n)%nat -> get (tabulate (Sh1 n) g) i j = g 0%nat j.
Proof.
  intros Hj. simpl. now apply nth_map_seq.
Qed.

Lemma tabulate_ext (s : shape) (f g : nat -> nat -> float) :
  (forall i j, (i < nrows s)%nat -> (j < ncols s)%nat -> f i j = g i j) ->
  tabulate s f = tabulate s g.
Proof.
  intros Hfg. destruct s as [|n|r c]; simpl in *.
  - rewrite Hfg by lia. reflexivity.
  - f_equal. apply map_ext_in. intros j Hj. apply in_seq in Hj.
    apply Hfg; lia.
  - f_equal. apply map_ext_in. intros i Hi. apply in_seq in Hi.
    apply map_ext_in. intros j Hj. apply in_seq in Hj.
    apply Hfg; lia.
Qed.

Lemma shape_umap (f : float -> float) (a : ndarray) :
  shape_of (umap f a) = shape_of a.
Proof.
  destruct a; simpl; try reflexivity. now rewrite length_map.
Qed.

Lemma wf_umap (f : float -> float) (a : ndarray) : wf a -> wf (umap f a).
Proof.
  destruct a as [v|l|r c rows]; simpl; auto.
  intros [Hr Hc]. split.
  - now rewrite length_map.
  - apply Forall_forall. intros row Hrow.
    apply in_map_iff in Hrow. destruct Hrow as [row' [<- Hin]].
    rewrite length_map. rewrite Forall_forall in Hc. now apply Hc.
Qed.

Lemma nth_map_lt (f : float -> float) (l : list float) (j : nat) :
  (j < length l)%nat -> nth j (map f l) 0 = f (nth j l 0).
Proof.
  intros Hj.
  rewrite (nth_indep _ 0 (f 0)) by (now rewrite length_map).
  apply map_nth.
Qed.

(** Within the bounds of a well-formed array, [umap] acts on each element. *)
Lemma get_umap (f : float -> float) (a : ndarray) (i j : nat) :
  wf a ->
  (i < nrows (shape_of a))%nat -> (j < ncols (shape_of a))%nat ->
  get (umap f a) i j = f (get a i j).
Proof.
  destruct a as [v|l|r c rows]; simpl; intros Hwf Hi Hj.
  - reflexivity.
  - now apply nth_map_lt.
  - destruct Hwf as [Hr Hc].
    rewrite (nth_indep _ [] (map f [])) by (rewrite length_map; lia).
    rewrite (map_nth (map f) rows [] i).
    apply nth_map_lt.
    rewrite Forall_forall in Hc. rewrite (Hc (nth i rows [])); [exact Hj|].
    apply nth_In. lia.
Qed.

Lemma bdim_same (n : nat) : bdim n n = Some n.
Proof. unfold bdim. now rewrite Nat.eqb_refl. Qed.

Lemma bdim_one_r (n : nat) : bdim n 1 = Some n.
Proof.
  unfold bdim. destruct (Nat.eqb n 1) eqn:E; [|reflexivity].
  reflexivity.
Qed.

Lemma broadcast_shapes_same (s : shape) : broadcast_shapes s s = Some s.
Proof.
  destruct s as [|n|r c]; simpl; try reflexivity.
  - now rewrite bdim_same.
  - now rewrite !bdim_same.
Qed.

(** Inside the bounds of the array, a broadcast read is a plain read. *)
Lemma bget_in_bounds (a : ndarray) (i j : nat) :
  (i < nrows (shape_of a))%nat -> (j < ncols (shape_of a))%nat ->
  bget a i j = get a i j.
Proof.
  intros Hi Hj. unfold bget.
  destruct (Nat.eqb_spec (nrows (shape_of a)) 1) as [E1|E1];
    destruct (Nat.eqb_spec (ncols (shape_of a)) 1) as [E2|E2];
    repeat match goal with
           | H : _ = 1%nat, L : (?k < _)%nat |- _ =>
               rewrite H in L; assert (k = 0%nat) by lia; subst k; clear L
           end; reflexivity.
Qed.

End ArrayFacts.

(** ** Facts about summation plans *)

Section PlanFacts.
Open Scope float_scope.

(** A plan reads only the terms it names. *)
Lemma eval_ext (term term' : nat -> float) (fuse fuse' : nat -> float -> float)
    (p : plan) :
  (forall k, In k (leaves p) ->
             term k = term' k /\ forall acc, fuse k acc = fuse' k acc) ->
  eval term fuse p = eval term' fuse' p.
Proof.
  induction p as [|k|p IHp q IHq|k p IHp]; cbn [eval leaves]; intros Hk.
  - reflexivity.
  - apply Hk. now left.
  - rewrite IHp, IHq; try reflexivity;
      intros k Hin; apply Hk, in_or_app; [now right|now left].
  - rewrite IHp by (intros k' Hin; apply Hk; now right).
    apply Hk. now left.
Qed.

Lemma covers_lt (p : plan) (n k : nat) :
  covers p n -> In k (leaves p) -> (k < n)%nat.
Proof.
  intros Hc Hin. apply (Permutation_in _ Hc) in Hin.
  apply in_seq in Hin. lia.
Qed.

Lemma contract_ext (p : plan) (n : nat) (a a' b b' : nat -> float) :
  covers p n ->
  (forall k, (k < n)%nat -> a k = a' k) ->
  (forall k, (k < n)%nat -> b k = b' k) ->
  contract p a b = contract p a' b'.
Proof.
  intros Hc Ha Hb. unfold contract. apply eval_ext. intros k Hin.
  pose proof (@covers_lt p n k Hc Hin) as Hk.
  rewrite (Ha k Hk), (Hb k Hk). split; reflexivity.
Qed.

Lemma accumulate_ext (p : plan) (n : nat) (x x' : nat -> float) :
  covers p n ->
  (forall k, (k < n)%nat -> x k = x' k) ->
  accumulate p x = accumulate p x'.
Proof.
  intros Hc Hx. unfold accumulate. apply eval_ext. intros k Hin.
  rewrite (Hx k (@covers_lt p n k Hc Hin)). split; reflexivity.
Qed.

(** A plan for no term evaluates to 0.0. *)
Lemma eval_no_leaves (term : nat -> float) (fuse : nat -> float -> float)
    (p : plan) :
  leaves p = [] -> eval term fuse p = 0.
Proof.
  induction p as [|k|p IHp q IHq|k p IHp]; cbn [eval leaves]; intros Hl.
  - reflexivity.
  - discriminate.
  - apply app_eq_nil in Hl. destruct Hl as [Hp Hq].
    rewrite IHp, IHq by assumption. reflexivity.
  - discriminate.
Qed.

Lemma eval_covers_0 (term : nat -> float) (fuse : nat -> float -> float)
    (p : plan) :
  covers p 0 -> eval term fuse p = 0.
Proof.
  intros Hc. apply eval_no_leaves.
  apply Permutation_nil. apply Permutation_sym. exact Hc.
Qed.

(** The plans that name only the term 0, and at most once. *)
Lemma leaves_within_one (l : list nat) :
  NoDup l -> (forall k, In k l -> k = 0%nat) -> l = [] \/ l = [0%nat].
Proof.
  intros Hnd Hall. destruct l as [|k l]; [now left|right].
  assert (k = 0%nat) by (apply Hall; now left). subst k.
  destruct l as [|k' l]; [reflexivity|].
  assert (k' = 0%nat) by (apply Hall; right; now left). subst k'.
  inversion Hnd as [|? ? Hnin _]. exfalso. apply Hnin. now left.
Qed.

(** A plan for one term [t] evaluates to [t], when adding 0.0 to [t] on
    either side, or fusing it with a cleared accumulator, gives [t]. *)
Lemma eval_single (term : nat -> float) (fuse : nat -> float -> float)
    (p : plan) :
  term 0%nat + 0 = term 0%nat ->
  0 + term 0%nat = term 0%nat ->
  fuse 0%nat 0 = term 0%nat ->
  covers p 1 ->
  eval term fuse p = term 0%nat.
Proof.
  intros Hr Hl Hf Hc.
  assert (Hinv : forall q : plan,
             NoDup (leaves q) ->
             (forall k, In k (leaves q) -> k = 0%nat) ->
             (leaves q = [] /\ eval term fuse q = 0)
             \/ (leaves q = [0%nat] /\ eval term fuse q = term 0%nat)).
  { induction q as [|k|q1 IH1 q2 IH2|k q IHq]; cbn [eval leaves];
      intros Hnd Hall.
    - left. split; reflexivity.
    - right. rewrite (Hall k) by now left. split; reflexivity.
    - assert (Hnd1 : NoDup (leaves q1)) by (eapply NoDup_app_remove_r; eauto).
      assert (Hnd2 : NoDup (leaves q2)) by (eapply NoDup_app_remove_l; eauto).
      destruct (IH1 Hnd1) as [[L1 E1]|[L1 E1]];
        [intros k Hin; apply Hall, in_or_app; now left| |];
        (destruct (IH2 Hnd2) as [[L2 E2]|[L2 E2]];
         [intros k Hin; apply Hall, in_or_app; now right| |]);
        rewrite L1, L2, E1, E2 in *; cbn [app].
      + left. split; reflexivity.
      + right. split; [reflexivity|exact Hl].
      + right. split; [reflexivity|exact Hr].
      + exfalso. inversion Hnd as [|? ? Hnin _]. apply Hnin. now left.
    - assert (k = 0%nat) by (apply Hall; now left). subst k.
      inversion Hnd as [|? ? Hnin Hnd']. subst.
      destruct (IHq Hnd') as [[Lq Eq]|[Lq Eq]];
        [intros k Hin; apply Hall; now right| |].
      + right. rewrite Lq, Eq. split; [reflexivity|exact Hf].
      + exfalso. apply Hnin. rewrite Lq. now left. }
  assert (Hnd : NoDup (leaves p)).
  { apply (Permutation_NoDup (Permutation_sym Hc)). apply seq_NoDup. }
  assert (Hall : forall k, In k (leaves p) -> k = 0%nat).
  { intros k Hin. pose proof (@covers_lt p 1 k Hc Hin). lia. }
  destruct (Hinv p Hnd Hall) as [[Lp _]|[_ Ep]]; [|exact Ep].
  exfalso. unfold covers in Hc. rewrite Lp in Hc.
  apply Permutation_nil in Hc. discriminate.
Qed.

End PlanFacts.
(** ** Facts about binary64 arithmetic *)

Section FloatFacts.
Open Scope float_scope.

(** Rounding the exact product of a canonical mantissa with the mantissa
    of 1.0 gives the mantissa back. *)
Lemma round_mul_one (s : bool) (m : positive) (e : Z) :
  bounded prec emax m e = true ->
  binary_round_aux prec emax s (Zpos (m * 4503599627370496)) (e + -52) loc_Exact
  = S754_finite s m e.
Proof.
  intros Hb.
  unfold bounded, canonical_mantissa in Hb.
  apply andb_true_iff in Hb. destruct Hb as [Hc He].
  apply Z.eqb_eq in Hc.
  unfold binary_round_aux.
  unfold shr_fexp at 1.
  rewrite Pos.mul_comm. cbn [Pos.mul].
  cbn [Zdigits2 digits2_pos].
  match goal with
  | |- context [(fexp prec emax ?a - ?b)%Z] =>
      replace (fexp prec emax a - b)%Z with 52%Z
  end.
  2:{ repeat rewrite Pos2Z.inj_succ.
      match goal with
      | |- context [fexp prec emax ?a] =>
          replace a with (Z.pos (digits2_pos m) + e)%Z by lia
      end.
      rewrite Hc. lia. }
  cbn [shr shr_record_of_loc SpecFloat.iter_pos shr_1 orb].
  cbn [shr_m loc_of_shr_record round_nearest_even].
  unfold shr_fexp. cbn [Zdigits2].
  replace (e + -52 + 52)%Z with e by lia.
  rewrite Hc, Z.sub_diag.
  cbn [shr shr_record_of_loc shr_m].
  rewrite He. reflexivity.
Qed.

(** Multiplying by 1.0 is exact on every binary64 value. *)
Lemma mul_1_r (x : float) : x * 1 = x.
Proof.
  apply Prim2SF_inj. rewrite mul_spec.
  pose proof (Prim2SF_valid x) as Hv.
  change (Prim2SF 1) with (S754_finite false 4503599627370496 (-52)).
  destruct (Prim2SF x) as [s|s| |s m e]; cbn [SF64mul SFmul];
    try rewrite xorb_false_r; try reflexivity.
  apply round_mul_one. exact Hv.
Qed.

Lemma SF_zero : Prim2SF 0 = S754_zero false.
Proof. reflexivity. Qed.

Ltac float_cases v :=
  rewrite ?ltb_spec, ?eqb_spec, ?leb_spec, ?SF_zero;
  destruct (Prim2SF v) as [s|s| |s m e]; try destruct s; cbn;
  intuition congruence.

Lemma leb_0_of_pos (v : float) :
  (0 <? v) = true -> (0 <=? v) = true /\ (v <? 0) = false.
Proof. float_cases v. Qed.

Lemma leb_0_of_neg (v : float) :
  (v <? 0) = true -> (0 <=? v) = false /\ (v <=? 0) = true.
Proof. float_cases v. Qed.

Lemma leb_0_of_zero (v : float) :
  (v =? 0) = true -> (0 <=? v) = true /\ (v <? 0) = false.
Proof. float_cases v. Qed.

(** A finite value times 0.0 is a zero (of either sign). *)
Lemma mul_0_r_finite (x : float) :
  is_finite x = true -> is_zero (x * 0) = true.
Proof.
  unfold is_finite, is_nan, is_infinity, is_zero.
  rewrite !eqb_spec, abs_spec, mul_spec.
  change (Prim2SF infinity) with (S754_infinity false).
  change (Prim2SF zero) with (S754_zero false).
  rewrite SF_zero.
  destruct (Prim2SF x) as [s|s| |s m e]; try destruct s; cbn; congruence.
Qed.

(** Adding 0.0 to a value that is not a zero leaves it as it is. *)
Lemma add_0_r_nonzero (t : float) : is_zero t = false -> t + 0 = t.
Proof.
  unfold is_zero. rewrite eqb_spec.
  change (Prim2SF zero) with (S754_zero false).
  intros Hz. apply Prim2SF_inj. rewrite add_spec, SF_zero.
  destruct (Prim2SF t) as [s|s| |s m e]; try reflexivity.
  destruct s; discriminate.
Qed.

Lemma add_0_l_nonzero (t : float) : is_zero t = false -> 0 + t = t.
Proof.
  unfold is_zero. rewrite eqb_spec.
  change (Prim2SF zero) with (S754_zero false).
  intros Hz. apply Prim2SF_inj. rewrite add_spec, SF_zero.
  destruct (Prim2SF t) as [s|s| |s m e]; try reflexivity.
  destruct s; discriminate.
Qed.

(** Fusing a product that is not a zero with a cleared accumulator gives
    the rounded product. *)
Lemma fma_0_nonzero (a b : float) :
  is_zero (a * b) = false -> fma a b 0 = a * b.
Proof.
  intros Hz. unfold fma, SFfma. rewrite SF_zero.
  assert (Hmul : SF2Prim (SF64mul (Prim2SF a) (Prim2SF b)) = a * b).
  { now rewrite <- mul_spec, SF2Prim_Prim2SF. }
  assert (Hadd : SF2Prim (SF64add (SF64mul (Prim2SF a) (Prim2SF b))
                                  (S754_zero false)) = a * b).
  { rewrite <- mul_spec, <- SF_zero, <- add_spec, SF2Prim_Prim2SF.
    now apply add_0_r_nonzero. }
  destruct (Prim2SF a) as [sa|sa| |sa ma ea];
    destruct (Prim2SF b) as [sb|sb| |sb mb eb];
    first [exact Hmul | exact Hadd].
Qed.

(** [np.maximum(0, v)] and the indicator of [v >= 0], by the sign of [v]. *)
Lemma relu_pos (v : float) :
  (0 <? v) = true -> fmaximum 0 v = v /\ indicator_ge0 v = 1.
Proof.
  intros Hv. destruct (leb_0_of_pos Hv) as [H1 H2].
  unfold fmaximum, indicator_ge0. rewrite H1, H2. split; reflexivity.
Qed.

Lemma relu_neg (v : float) :
  (v <? 0) = true -> fmaximum 0 v = 0 /\ indicator_ge0 v = 0.
Proof.
  intros Hv. destruct (leb_0_of_neg Hv) as [H1 H2].
  unfold fmaximum, indicator_ge0. rewrite H1, Hv. split; reflexivity.
Qed.

Lemma relu_zero (v : float) :
  (v =? 0) = true -> fmaximum 0 v = v /\ indicator_ge0 v = 1.
Proof.
  intros Hv. destruct (leb_0_of_zero Hv) as [H1 H2].
  unfold fmaximum, indicator_ge0. rewrite H1, H2. split; reflexivity.
Qed.

(** The sum of one term that is not a zero is that term, by any plan. *)
Lemma accumulate_single (p : plan) (x : nat -> float) :
  covers p 1 -> is_zero (x 0%nat) = false -> accumulate p x = x 0%nat.
Proof.
  intros Hc Hz. unfold accumulate. apply eval_single; try assumption.
  - now apply add_0_r_nonzero.
  - now apply add_0_l_nonzero.
  - now apply add_0_l_nonzero.
Qed.

(** The sum of one product that is not a zero is that product. *)
Lemma contract_single (p : plan) (a b : nat -> float) :
  covers p 1 -> is_zero (a 0%nat * b 0%nat) = false ->
  contract p a b = a 0%nat * b 0%nat.
Proof.
  intros Hc Hz. unfold contract. apply eval_single; try assumption.
  - now apply add_0_r_nonzero.
  - now apply add_0_l_nonzero.
  - now apply fma_0_nonzero.
Qed.

End FloatFacts.

(** ** The sums of the scenario, by any plan *)

Section ScenarioSums.
Open Scope float_scope.

Definition mem (k : nat) (l : list nat) : bool := existsb (Nat.eqb k) l.

Lemma mem_In (k : nat) (l : list nat) : mem k l = true <-> In k l.
Proof.
  unfold mem. rewrite existsb_exists. split.
  - intros [x [Hin Hx]]. apply Nat.eqb_eq in Hx. now subst.
  - intros Hin. exists k. split; [exact Hin|apply Nat.eqb_refl].
Qed.

Lemma mem_app (k : nat) (l1 l2 : list nat) :
  mem k (l1 ++ l2) = mem k l1 || mem k l2.
Proof. apply existsb_app. Qed.

Lemma NoDup_app_mem (k : nat) (l1 l2 : list nat) :
  NoDup (l1 ++ l2) -> mem k l1 = true -> mem k l2 = true -> False.
Proof.
  intros Hnd H1 H2. apply mem_In in H1. apply mem_In in H2.
  induction l1 as [|x l1 IH]; [contradiction|].
  cbn [app] in Hnd. inversion Hnd as [|? ? Hnin Hnd']. subst.
  destruct H1 as [->|H1]; [|now apply IH].
  apply Hnin, in_or_app. now right.
Qed.

Lemma NoDup_cons_mem (k : nat) (l : list nat) :
  NoDup (k :: l) -> mem k l = false.
Proof.
  intros Hnd. inversion Hnd as [|? ? Hnin _]. subst.
  destruct (mem k l) eqn:E; [|reflexivity].
  apply mem_In in E. contradiction.
Qed.

(** The value of a partial sum of [1*1 + 1*2], by the terms it holds. *)
Definition partial_3 (h0 h1 : bool) : float :=
  if h0 then (if h1 then 3 else 1) else (if h1 then 2 else 0).

(** [1*1 + 1*2] is 3.0 in every order and grouping, fused or not. *)
Lemma contract_scenario (p : plan) (a b : nat -> float) :
  a 0%nat = 1 -> a 1%nat = 1 -> b 0%nat = 1 -> b 1%nat = 2 ->
  covers p 2 ->
  contract p a b = 3.
Proof.
  intros Ha0 Ha1 Hb0 Hb1 Hc. unfold contract.
  assert (Hinv : forall q : plan,
             NoDup (leaves q) ->
             (forall k, In k (leaves q) -> (k < 2)%nat) ->
             eval (fun k => a k * b k) (fun k acc => fma (a k) (b k) acc) q
             = partial_3 (mem 0 (leaves q)) (mem 1 (leaves q))).
  { induction q as [|k|q1 IH1 q2 IH2|k q IHq]; cbn [eval leaves];
      intros Hnd Hlt.
    - reflexivity.
    - assert (Hk : (k < 2)%nat) by (apply Hlt; now left).
      destruct k as [|[|k]]; [| |lia].
      + rewrite Ha0, Hb0. reflexivity.
      + rewrite Ha1, Hb1. reflexivity.
    - rewrite IH1, IH2;
        [ | eapply NoDup_app_remove_l; eauto
          | intros k Hin; apply Hlt, in_or_app; now right
          | eapply NoDup_app_remove_r; eauto
          | intros k Hin; apply Hlt, in_or_app; now left ].
      rewrite !mem_app.
      pose proof (@NoDup_app_mem 0 _ _ Hnd) as D0.
      pose proof (@NoDup_app_mem 1 _ _ Hnd) as D1.
      destruct (mem 0 (leaves q1)), (mem 0 (leaves q2)),
        (mem 1 (leaves q1)), (mem 1 (leaves q2));
        try (exfalso; now apply D0); try (exfalso; now apply D1);
        reflexivity.
    - assert (Hk : (k < 2)%nat) by (apply Hlt; now left).
      pose proof (NoDup_cons_mem Hnd) as Hm.
      inversion Hnd as [|? ? _ Hnd']. subst.
      rewrite IHq by (try assumption; intros k' Hin; apply Hlt; now right).
      assert (Hcons : forall j, mem j (k :: leaves q)
                                = Nat.eqb j k || mem j (leaves q))
        by reflexivity.
      rewrite !Hcons.
      destruct k as [|[|k]]; [| |lia]; cbn [Nat.eqb orb].
      + rewrite Hm, Ha0, Hb0.
        destruct (mem 1 (leaves q)); vm_compute; reflexivity.
      + rewrite Hm, Ha1, Hb1.
        destruct (mem 0 (leaves q)); vm_compute; reflexivity. }
  rewrite Hinv.
  - assert (H0 : mem 0 (leaves p) = true).
    { apply mem_In. apply (Permutation_in _ (Permutation_sym Hc)).
      cbn. now left. }
    assert (H1 : mem 1 (leaves p) = true).
    { apply mem_In. apply (Permutation_in _ (Permutation_sym Hc)).
      cbn. right. now left. }
    now rewrite H0, H1.
  - apply (Permutation_NoDup (Permutation_sym Hc)). apply seq_NoDup.
  - intros k Hin. exact (@covers_lt p 2 k Hc Hin).
Qed.

End ScenarioSums.

(** ** Linear layer *)

Section LinearFacts.
Context `{Summation}.
Open Scope float_scope.

(** The product of a [(r, n)] array with an [(n, c)] array. *)
Lemma dot_Mat_Mat (r n c : nat) (A B : list (list float)) :
  dot (Mat r n A) (Mat n c B) =
  Ok (tabulate (Sh2 r c)
        (fun i j =>
           contract (dot_plan (Sh2 r n) (Sh2 n c) i j)
                    (fun k => nth k (nth i A []) 0)
                    (fun k => nth j (nth k B []) 0))).
Proof. cbn [dot]. now rewrite Nat.eqb_refl. Qed.

Lemma dot_Mat_Mat_mismatch (r n n' c : nat) (A B : list (list float)) :
  n <> n' -> dot (Mat r n A) (Mat n' c B) = Raise ValueError.
Proof.
  intros Hn. cbn [dot].
  destruct (Nat.eqb_spec n n'); [contradiction|reflexivity].
Qed.

(** Adding a [(1, c)] row to an [(r, c)] array repeats the row. *)
Lemma add_row (r c : nat) (A B : list (list float)) :
  add (Mat r c A) (Mat 1 c B) =
  Ok (tabulate (Sh2 r c)
        (fun i j => get (Mat r c A) i j + get (Mat 1 c B) 0 j)).
Proof.
  unfold add, binop. cbn [shape_of broadcast_shapes].
  rewrite bdim_one_r, bdim_same.
  f_equal. apply (tabulate_ext (Sh2 r c)). cbn [nrows ncols]. intros i j Hi Hj.
  rewrite (@bget_in_bounds (Mat r c A)) by (simpl; lia).
  f_equal. unfold bget. cbn [shape_of nrows ncols Nat.eqb].
  destruct (Nat.eqb_spec c 1) as [E|E]; [|reflexivity].
  replace j with 0%nat by lia. reflexivity.
Qed.

Lemma add_row_tabulate (r c : nat) (g : nat -> nat -> float)
    (B : list (list float)) :
  add (tabulate (Sh2 r c) g) (Mat 1 c B) =
  Ok (tabulate (Sh2 r c) (fun i j => g i j + nth j (nth 0 B []) 0)).
Proof.
  cbn [tabulate]. rewrite add_row. f_equal.
  apply (tabulate_ext (Sh2 r c)). cbn [nrows ncols]. intros i j Hi Hj.
  f_equal. exact (get_tabulate2 g Hi Hj).
Qed.

Lemma forward_affine (in_size out_size batch : nat) (W B X : list (list float))
    (c : option ndarray) (wg bg : ndarray) :
  Linear.forward (Linear.mk (Mat in_size out_size W) (Mat 1 out_size B) c wg bg)
                 (Mat batch in_size X) =
  (Linear.mk (Mat in_size out_size W) (Mat 1 out_size B)
             (Some (affine in_size out_size batch W B X)) wg bg,
   Ok (affine in_size out_size batch W B X)).
Proof.
  unfold Linear.forward. cbn [Linear.weights Linear.biases].
  rewrite dot_Mat_Mat. cbn [bind]. rewrite add_row_tabulate. reflexivity.
Qed.

(** [forward] leaves its result in the cache. *)
Lemma forward_caches_output (self self1 : Linear.t) (x y : ndarray) :
  Linear.forward self x = (self1, Ok y) ->
  Linear._cached_activations self1 = Some y.
Proof.
  unfold Linear.forward.
  destruct (xw <- dot x (Linear.weights self) ;; add xw (Linear.biases self))
    as [a|e]; intros Hf; inversion Hf; subst. reflexivity.
Qed.

Lemma sum0_Mat (batch out_size : nat) (E : list (list float)) :
  sum0 (Mat batch out_size E) = Ok (column_sums batch out_size E).
Proof. reflexivity. Qed.

(** [a.T . b] for [a] of shape (n, r) and [b] of shape (n, c). *)
Lemma dot_transpose_l (n r c : nat) (A B : list (list float)) :
  dot (transpose (Mat n r A)) (Mat n c B) =
  Ok (tabulate (Sh2 r c)
        (fun i j =>
           contract (dot_plan (Sh2 r n) (Sh2 n c) i j)
                    (fun k => nth i (nth k A []) 0)
                    (fun k => nth j (nth k B []) 0))).
Proof.
  cbn [transpose tabulate]. rewrite dot_Mat_Mat. f_equal.
  apply (tabulate_ext (Sh2 r c)). cbn [nrows ncols]. intros i j Hi Hj.
  apply (@contract_ext _ n); [apply (dot_plan_covers (Sh2 r n))| |reflexivity].
  intros k Hk.
  exact (get_tabulate2 (fun i0 j0 => get (Mat n r A) j0 i0) Hi Hk).
Qed.

(** [a . b.T] for [a] of shape (r, n) and [b] of shape (c, n). *)
Lemma dot_transpose_r (n r c : nat) (A B : list (list float)) :
  dot (Mat r n A) (transpose (Mat c n B)) =
  Ok (tabulate (Sh2 r c)
        (fun i j =>
           contract (dot_plan (Sh2 r n) (Sh2 n c) i j)
                    (fun k => nth k (nth i A []) 0)
                    (fun k => nth k (nth j B []) 0))).
Proof.
  cbn [transpose tabulate]. rewrite dot_Mat_Mat. f_equal.
  apply (tabulate_ext (Sh2 r c)). cbn [nrows ncols]. intros i j Hi Hj.
  apply (@contract_ext _ n); [apply (dot_plan_covers (Sh2 r n))|reflexivity|].
  intros k Hk.
  exact (get_tabulate2 (fun i0 j0 => get (Mat c n B) j0 i0) Hk Hj).
Qed.

(** The two gradient statements of [backward], on a cache of [batch] rows
    and an error of as many rows and any width. *)
Lemma backward_gradients (in_size out_size batch width : nat)
    (W Y E : list (list float)) (b wg bg : ndarray) :
  Linear.backward
    (Linear.mk (Mat in_size out_size W) b (Some (Mat batch out_size Y)) wg bg)
    (Mat batch width E)
  = (Linear.mk (Mat in_size out_size W) b (Some (Mat batch out_size Y))
       (outputT_dot_wide_error batch out_size width Y E)
       (column_sums batch width E),
     dot (Mat batch width E) (transpose (Mat in_size out_size W))).
Proof.
  unfold Linear.backward. rewrite sum0_Mat.
  unfold Linear.cached_T, Linear.set_bias_gradients, Linear.set_weight_gradients.
  cbn [Linear._cached_activations Linear.weights Linear.biases
       Linear._weight_gradients Linear._bias_gradients bind].
  rewrite dot_transpose_l. reflexivity.
Qed.

(** [backward] on a layer whose cache has as many rows as [error]. *)
Lemma backward_typed (in_size out_size batch : nat) (W Y E : list (list float))
    (b wg bg : ndarray) :
  Linear.backward
    (Linear.mk (Mat in_size out_size W) b (Some (Mat batch out_size Y)) wg bg)
    (Mat batch out_size E)
  = (Linear.mk (Mat in_size out_size W) b (Some (Mat batch out_size Y))
       (outputT_dot_error batch out_size Y E)
       (column_sums batch out_size E),
     Ok (error_dot_weightsT in_size out_size batch W E)).
Proof.
  rewrite backward_gradients, dot_transpose_r. reflexivity.
Qed.


(** The scenario layer, as a record. *)
Lemma scenario_dense :
  Scenario.dense
  = Linear.mk (Mat 2 1 [[1]; [2]]) (Mat 1 1 [[0]]) None
              (Mat 2 1 [[0]; [0]]) (Mat 1 1 [[0]]).
Proof. reflexivity. Qed.

(** The scenario, under every summation: [forward([[1.0, 1.0]])] returns
    and caches [[3.0]]. *)
Lemma scenario_forward :
  Linear.forward Scenario.dense (Mat 1 2 [[1; 1]])
  = (Linear.mk (Mat 2 1 [[1]; [2]]) (Mat 1 1 [[0]]) (Some (Mat 1 1 [[3]]))
               (Mat 2 1 [[0]; [0]]) (Mat 1 1 [[0]]),
     Ok (Mat 1 1 [[3]])).
Proof.
  rewrite scenario_dense, forward_affine.
  assert (E : affine 2 1 1 [[1]; [2]] [[0]] [[1; 1]] = Mat 1 1 [[3]]).
  { unfold affine. cbn [tabulate seq map].
    rewrite contract_scenario;
      [reflexivity|reflexivity..|exact (dot_plan_covers (Sh2 1 2) _ _ _)]. }
  now rewrite E.
Qed.

(** Then [backward([[1.0]])] stores the bias gradient [1.0] and the
    weight gradient [[3.0]] and returns [[1.0, 2.0]]. *)
Lemma scenario_backward :
  Linear.backward
    (Linear.mk (Mat 2 1 [[1]; [2]]) (Mat 1 1 [[0]]) (Some (Mat 1 1 [[3]]))
               (Mat 2 1 [[0]; [0]]) (Mat 1 1 [[0]]))
    (Mat 1 1 [[1]])
  = (Linear.mk (Mat 2 1 [[1]; [2]]) (Mat 1 1 [[0]]) (Some (Mat 1 1 [[3]]))
               (Mat 1 1 [[3]]) (Vec [1]),
     Ok (Mat 1 2 [[1; 2]])).
Proof.
  rewrite backward_typed.
  unfold outputT_dot_error, column_sums, error_dot_weightsT.
  cbn [tabulate seq map].
  rewrite accumulate_single;
    [|exact (sum_plan_covers (Sh2 1 1) 0)|reflexivity].
  repeat (rewrite contract_single;
          [|exact (dot_plan_covers _ _ _ _)|reflexivity]).
  reflexivity.
Qed.

End LinearFacts.

Section LinearForward.
Open Scope float_scope.

(** C4. For a layer with weights [W] of shape (in_size, out_size) and
    biases [b] of shape (1, out_size), [forward] on an input [x] of shape
    (batch, in_size) returns (and caches) the array of shape
    (batch, out_size) whose element (i, j) is the sum over k of the
    products [x[i, k] * W[k, j]], added up as the library's plan for
    that element has it, plus [b[0, j]]: that is [x . W + b] with the
    bias row repeated for every row of the batch.  On the scenario layer,
    [forward([[1.0, 1.0]])] returns [[3.0]], whatever the plan. *)
Theorem Linear_forward_affine :
  (forall (S : Summation) (in_size out_size batch : nat)
          (W B X : list (list float))
          (c : option ndarray) (wg bg : ndarray),
      Linear.forward
        (Linear.mk (Mat in_size out_size W) (Mat 1 out_size B) c wg bg)
        (Mat batch in_size X)
      = (Linear.mk (Mat in_size out_size W) (Mat 1 out_size B)
                   (Some (affine in_size out_size batch W B X)) wg bg,
         Ok (affine in_size out_size batch W B X))
      /\ shape_of (affine in_size out_size batch W B X) = Sh2 batch out_size
      /\ wf (affine in_size out_size batch W B X)
      /\ forall i j, (i < batch)%nat -> (j < out_size)%nat ->
           covers (dot_plan (Sh2 batch in_size) (Sh2 in_size out_size) i j)
                  in_size
           /\ get (affine in_size out_size batch W B X) i j
              = contract
                  (dot_plan (Sh2 batch in_size) (Sh2 in_size out_size) i j)
                  (fun k => nth k (nth i X []) 0)
                  (fun k => nth j (nth k W []) 0)
                + nth j (nth 0 B []) 0)
  /\ Linear.weights Scenario.dense = Mat 2 1 [[1]; [2]]
  /\ Linear.biases Scenario.dense = Mat 1 1 [[0]]
  /\ (forall S : Summation,
         snd (Linear.forward Scenario.dense (Mat 1 2 [[1; 1]]))
         = Ok (Mat 1 1 [[3]])).
Proof.
  split; [|split; [reflexivity|split; [reflexivity|]]].
  - intros S in_size out_size batch W B X c wg bg.
    split; [apply forward_affine|].
    split; [apply shape_tabulate|].
    split; [apply wf_tabulate|].
    intros i j Hi Hj.
    split; [exact (dot_plan_covers (Sh2 batch in_size) _ i j)|].
    unfold affine. now rewrite (get_tabulate2 _ Hi Hj).
  - intros S. now rewrite scenario_forward.
Qed.

End LinearForward.

Section LinearForwardWitness.
Open Scope float_scope.
#[local] Existing Instance Sequential.summation.

(** The element-wise reading of C4 at the scenario layer, adding the
    terms one by one. *)
Lemma Linear_forward_affine_witness :
  (0 < 1)%nat /\ (0 < 1)%nat /\
  get (affine 2 1 1 [[1]; [2]] [[0]] [[1; 1]]) 0 0
  = contract (dot_plan (Sh2 1 2) (Sh2 2 1) 0 0)
             (fun k => nth k (nth 0 [[1; 1]] []) 0)
             (fun k => nth 0 (nth k [[1]; [2]] []) 0)
    + nth 0 (nth 0 [[0]] []) 0.
Proof.
  split; [apply Nat.lt_0_1|]. split; [apply Nat.lt_0_1|].
  apply (proj1 Linear_forward_affine Sequential.summation 2%nat 1%nat 1%nat
           [[1]; [2]] [[0]] [[1; 1]] None (Scalar 0) (Scalar 0));
    apply Nat.lt_0_1.
Defined.

End LinearForwardWitness.

Section LinearClaims.
Open Scope float_scope.

(** C1. Once [forward] has returned [y], [backward] overwrites
    [_weight_gradients] with [y.T . error], the transpose of the cached
    forward output (not of the input) times [error], whenever that
    product is defined.  For an input of shape (batch, in_size) and an
    error of shape (batch, out_size) the product is defined and its shape
    is (out_size, out_size), not the (in_size, out_size) of the weights:
    on the scenario layer, whose weights have shape (2, 1), after
    [forward([[1.0, 1.0]])] and [backward([[1.0]])] the weight gradient is
    [[3.0]], of shape (1, 1). *)
Theorem Linear_backward_weight_gradients :
  (forall (S : Summation) (self self1 : Linear.t) (x y error bg wg : ndarray),
      Linear.forward self x = (self1, Ok y) ->
      sum0 error = Ok bg ->
      dot (transpose y) error = Ok wg ->
      Linear._weight_gradients (fst (Linear.backward self1 error)) = wg)
  /\ (forall (S : Summation) (in_size out_size batch : nat)
             (W B X E : list (list float))
             (c : option ndarray) (wg bg : ndarray),
         Linear._weight_gradients
           (fst (Linear.backward
                   (fst (Linear.forward
                           (Linear.mk (Mat in_size out_size W)
                                      (Mat 1 out_size B) c wg bg)
                           (Mat batch in_size X)))
                   (Mat batch out_size E)))
         = tabulate (Sh2 out_size out_size)
             (fun i j =>
                contract
                  (dot_plan (Sh2 out_size batch) (Sh2 batch out_size) i j)
                  (fun k => get (affine in_size out_size batch W B X) k i)
                  (fun k => nth j (nth k E []) 0))
         /\ shape_of
              (Linear._weight_gradients
                 (fst (Linear.backward
                         (fst (Linear.forward
                                 (Linear.mk (Mat in_size out_size W)
                                            (Mat 1 out_size B) c wg bg)
                                 (Mat batch in_size X)))
                         (Mat batch out_size E))))
            = Sh2 out_size out_size)
  /\ (forall S : Summation,
         shape_of (Linear.weights Scenario.dense) = Sh2 2 1
         /\ snd (Linear.forward Scenario.dense Scenario.x) = Ok (Mat 1 1 [[3]])
         /\ Linear._weight_gradients Scenario.after_backward = Mat 1 1 [[3]]
         /\ shape_of (Linear._weight_gradients Scenario.after_backward)
            <> shape_of (Linear.weights Scenario.dense)).
Proof.
  split; [|split].
  - intros S self self1 x y error bg wg Hf Hs Hd.
    apply forward_caches_output in Hf.
    unfold Linear.backward. rewrite Hs.
    unfold Linear.cached_T, Linear.set_bias_gradients.
    cbn [Linear._cached_activations]. rewrite Hf. cbn [bind]. rewrite Hd.
    reflexivity.
  - intros S in_size out_size batch W B X E c wg bg.
    rewrite forward_affine. cbn [fst]. unfold affine at 1 3.
    cbn [tabulate]. rewrite backward_typed. cbn [fst Linear._weight_gradients].
    split; [reflexivity|apply shape_tabulate].
  - intros S. unfold Scenario.after_backward, Scenario.after_forward.
    cbn [forward backward Linear_Activation]. unfold Scenario.x, Scenario.error.
    rewrite scenario_forward. cbn [fst snd]. rewrite scenario_backward.
    cbn [fst Linear._weight_gradients].
    split; [reflexivity|]. split; [reflexivity|]. split; [reflexivity|].
    intros Hsh. discriminate Hsh.
Qed.

(** C2. With weights [W] of shape (in_size, out_size) and a cache of
    [batch] rows (as [forward] on a batch of that size leaves it),
    [backward] on an error of shape (batch, out_size) returns
    [error . W.T]: the array of shape (batch, in_size) whose element
    (i, j) is the sum over k of the products [error[i, k] * W[j, k]],
    added up as the library's plan for that element has it.  On the
    scenario layer, after [forward([[1.0, 1.0]])], [backward([[1.0]])]
    returns [[1.0, 2.0]], whatever the plan. *)
Theorem Linear_backward_input_gradient :
  (forall (S : Summation) (in_size out_size batch : nat)
          (W Y E : list (list float)) (b wg bg : ndarray),
      snd (Linear.backward
             (Linear.mk (Mat in_size out_size W) b
                        (Some (Mat batch out_size Y)) wg bg)
             (Mat batch out_size E))
      = Ok (error_dot_weightsT in_size out_size batch W E))
  /\ (forall (S : Summation) (in_size out_size batch : nat)
             (W B X E : list (list float))
             (c : option ndarray) (wg bg : ndarray),
         snd (Linear.backward
                (fst (Linear.forward
                        (Linear.mk (Mat in_size out_size W)
                                   (Mat 1 out_size B) c wg bg)
                        (Mat batch in_size X)))
                (Mat batch out_size E))
         = Ok (error_dot_weightsT in_size out_size batch W E)
         /\ dot (Mat batch out_size E) (transpose (Mat in_size out_size W))
            = Ok (error_dot_weightsT in_size out_size batch W E)
         /\ shape_of (error_dot_weightsT in_size out_size batch W E)
            = Sh2 batch in_size
         /\ wf (error_dot_weightsT in_size out_size batch W E)
         /\ forall i j, (i < batch)%nat -> (j < in_size)%nat ->
              covers (dot_plan (Sh2 batch out_size) (Sh2 out_size in_size) i j)
                     out_size
              /\ get (error_dot_weightsT in_size out_size batch W E) i j
                 = contract
                     (dot_plan (Sh2 batch out_size) (Sh2 out_size in_size) i j)
                     (fun k => nth k (nth i E []) 0)
                     (fun k => nth k (nth j W []) 0))
  /\ (forall S : Summation,
         Scenario.after_forward
         = fst (Linear.forward Scenario.dense (Mat 1 2 [[1; 1]]))
         /\ snd (Linear.backward Scenario.after_forward (Mat 1 1 [[1]]))
            = Ok (Mat 1 2 [[1; 2]])).
Proof.
  split; [|split].
  - intros. rewrite backward_typed. reflexivity.
  - intros S in_size out_size batch W B X E c wg bg.
    split.
    { rewrite forward_affine. cbn [fst]. unfold affine. cbn [tabulate].
      rewrite backward_typed. reflexivity. }
    split; [apply dot_transpose_r|].
    split; [apply shape_tabulate|].
    split; [apply wf_tabulate|].
    intros i j Hi Hj.
    split; [exact (dot_plan_covers (Sh2 batch out_size) _ i j)|].
    unfold error_dot_weightsT. exact (get_tabulate2 _ Hi Hj).
  - intros S. split; [reflexivity|].
    unfold Scenario.after_forward.
    cbn [forward Linear_Activation]. unfold Scenario.x.
    rewrite scenario_forward. cbn [fst]. now rewrite scenario_backward.
Qed.


End LinearClaims.

Section LinearWitnesses.
Open Scope float_scope.
#[local] Existing Instance Sequential.summation.

(** C1 at the scenario layer: the hypotheses hold there. *)
Lemma Linear_backward_weight_gradients_witness :
  Linear.forward Scenario.dense Scenario.x
    = (Scenario.after_forward, Ok (Mat 1 1 [[3]]))
  /\ sum0 Scenario.error = Ok (Vec [1])
  /\ dot (transpose (Mat 1 1 [[3]])) Scenario.error = Ok (Mat 1 1 [[3]])
  /\ Linear._weight_gradients
       (fst (Linear.backward Scenario.after_forward Scenario.error))
     = Mat 1 1 [[3]].
Proof.
  split; [reflexivity|]. split; [reflexivity|]. split; [reflexivity|].
  exact (proj1 Linear_backward_weight_gradients Sequential.summation
           Scenario.dense Scenario.after_forward Scenario.x (Mat 1 1 [[3]])
           Scenario.error (Vec [1]) (Mat 1 1 [[3]])
           eq_refl eq_refl eq_refl).
Defined.

(** The element-wise reading of C2 at the scenario layer. *)
Lemma Linear_backward_input_gradient_witness :
  (0 < 1)%nat /\ (1 < 2)%nat /\
  get (error_dot_weightsT 2 1 1 [[1]; [2]] [[1]]) 0 1
  = contract (dot_plan (Sh2 1 1) (Sh2 1 2) 0 1)
             (fun k => nth k (nth 0 [[1]] []) 0)
             (fun k => nth k (nth 1 [[1]; [2]] []) 0).
Proof.
  split; [apply Nat.lt_0_1|]. split; [apply Nat.lt_1_2|].
  apply (proj1 (proj2 Linear_backward_input_gradient) Sequential.summation
           2%nat 1%nat 1%nat
           [[1]; [2]] [[0]] [[1; 1]] [[1]] None (Scalar 0) (Scalar 0)).
  - apply Nat.lt_0_1.
  - apply Nat.lt_1_2.
Defined.



End LinearWitnesses.

(** ** Element-wise layers *)

Section ElementwiseFacts.
Open Scope float_scope.

Lemma get_tabulate (s : shape) (g : nat -> nat -> float) (i j : nat) :
  (i < nrows s)%nat -> (j < ncols s)%nat -> get (tabulate s g) i j = g i j.
Proof.
  destruct s as [|n|r c]; cbn [nrows ncols]; intros Hi Hj.
  - replace i with 0%nat by lia. replace j with 0%nat by lia. reflexivity.
  - replace i with 0%nat by lia. now apply get_tabulate1.
  - now apply get_tabulate2.
Qed.

(** A binary operator on two arrays of one shape acts element by element. *)
Lemma binop_same_shape (f : float -> float -> float) (a b : ndarray) :
  shape_of a = shape_of b ->
  binop f a b
  = Ok (tabulate (shape_of a) (fun i j => f (get a i j) (get b i j))).
Proof.
  intros Hs. unfold binop. rewrite <- Hs, broadcast_shapes_same.
  f_equal. apply tabulate_ext. intros i j Hi Hj.
  rewrite !bget_in_bounds; try assumption; try (rewrite <- Hs; assumption).
  reflexivity.
Qed.

(** The outcome of a binary operator is decided by the two shapes. *)
Lemma binop_shape (f : float -> float -> float) (a b : ndarray) :
  match broadcast_shapes (shape_of a) (shape_of b) with
  | Some s => exists g, binop f a b = Ok g /\ shape_of g = s /\ wf g
  | None => binop f a b = Raise ValueError
  end.
Proof.
  unfold binop. destruct (broadcast_shapes (shape_of a) (shape_of b)) as [s|].
  - eexists. split; [reflexivity|]. split; [apply shape_tabulate|apply wf_tabulate].
  - reflexivity.
Qed.

End ElementwiseFacts.

Section ElementwiseBackward.
Context `{Libm}.
Open Scope float_scope.

(** [error * d] where [d] was computed element by element from the cached
    input [x], for an error of the shape of [x]. *)
Lemma multiply_by_local_derivative (d : float -> float) (x error : ndarray) :
  wf x ->
  shape_of error = shape_of x ->
  multiply error (umap d x)
  = Ok (tabulate (shape_of x) (fun i j => get error i j * d (get x i j))).
Proof.
  intros Hwf Hs. unfold multiply.
  rewrite binop_same_shape by (now rewrite shape_umap).
  rewrite Hs. f_equal. apply tabulate_ext. intros i j Hi Hj.
  now rewrite get_umap.
Qed.

(** Tabulating a function of the elements of a well-formed array is [umap]. *)
Lemma tabulate_umap (f : float -> float) (a : ndarray) :
  wf a -> tabulate (shape_of a) (fun i j => f (get a i j)) = umap f a.
Proof.
  intros Hwf.
  destruct a as [v|l|r c rows]; cbn [shape_of tabulate umap get].
  - reflexivity.
  - f_equal. apply nth_ext with (d := 0) (d' := 0).
    + now rewrite !length_map, length_seq.
    + rewrite length_map, length_seq. intros j Hj.
      rewrite (nth_map_seq _ _ Hj). symmetry. now apply nth_map_lt.
  - destruct Hwf as [Hr Hc]. f_equal.
    apply nth_ext with (d := []) (d' := map f []).
    + now rewrite !length_map, length_seq.
    + rewrite length_map, length_seq. intros i Hi.
      rewrite (nth_map_seq _ _ Hi), (map_nth (map f) rows [] i).
      assert (Hlen : length (nth i rows []) = c).
      { rewrite Forall_forall in Hc. apply Hc, nth_In. lia. }
      apply nth_ext with (d := 0) (d' := 0).
      * now rewrite !length_map, length_seq.
      * rewrite length_map, length_seq. intros j Hj.
        rewrite (nth_map_seq _ _ Hj). symmetry. apply nth_map_lt. lia.
Qed.

(** [s * (1 - s)] for [s = _sigmoid(x)], element by element. *)
Lemma Sigmoid_derivative (x : ndarray) :
  wf x ->
  multiply (Sigmoid._sigmoid x) (umap (fun v => 1 - v) (Sigmoid._sigmoid x))
  = Ok (umap (fun v => Sigmoid.sigmoid1 v * (1 - Sigmoid.sigmoid1 v)) x).
Proof.
  intros Hwf. unfold multiply, Sigmoid._sigmoid.
  rewrite binop_same_shape by (now rewrite !shape_umap).
  f_equal. rewrite shape_umap.
  rewrite <- (tabulate_umap
                (fun v => Sigmoid.sigmoid1 v * (1 - Sigmoid.sigmoid1 v)) _ Hwf).
  apply tabulate_ext. intros i j Hi Hj.
  rewrite !get_umap; try reflexivity; try assumption;
    rewrite ?shape_umap; try assumption.
  now apply wf_umap.
Qed.

Lemma Sigmoid_backward_same_shape (x error : ndarray) :
  wf x ->
  shape_of error = shape_of x ->
  Sigmoid.backward (Sigmoid.mk (Some x)) error
  = (Sigmoid.mk (Some x), Ok (sigmoid_gradient x error)).
Proof.
  intros Hwf Hs. unfold Sigmoid.backward, Sigmoid._sigmoid_cached.
  cbn [Sigmoid.cached_input bind].
  rewrite Sigmoid_derivative by assumption. cbn [bind].
  rewrite multiply_by_local_derivative by assumption.
  reflexivity.
Qed.

Lemma ReLU_backward_same_shape (x error : ndarray) :
  wf x ->
  shape_of error = shape_of x ->
  ReLU.backward (ReLU.mk (Some x)) error
  = (ReLU.mk (Some x), Ok (relu_gradient x error)).
Proof.
  intros Hwf Hs. unfold ReLU.backward, ReLU.cached_ge0.
  cbn [ReLU.cached_input bind].
  rewrite multiply_by_local_derivative by assumption.
  reflexivity.
Qed.

End ElementwiseBackward.

Section SigmoidClaims.
Open Scope float_scope.

(** C7. [Sigmoid.forward(x)] returns [1 / (1 + exp(-x))] element by
    element and stores [x] itself in the cache.  A following
    [backward(error)], for an error of the shape of [x], recomputes
    [s = sigmoid(x)] from the cache and returns, element by element,
    [error * (s * (1 - s))] (the derivative [s * (1 - s)] is formed first
    and the error is multiplied by it); the cache is left as it was. *)
Theorem Sigmoid_forward_backward :
  forall (M : Libm) (self : Sigmoid.t) (x error : ndarray),
    wf x ->
    shape_of error = shape_of x ->
    Sigmoid.forward self x
      = (Sigmoid.mk (Some x), Ok (umap Sigmoid.sigmoid1 x))
    /\ (forall i j,
          (i < nrows (shape_of x))%nat -> (j < ncols (shape_of x))%nat ->
          get (umap Sigmoid.sigmoid1 x) i j = 1 / (1 + np_exp (- get x i j)))
    /\ Sigmoid.backward (fst (Sigmoid.forward self x)) error
       = (Sigmoid.mk (Some x), Ok (sigmoid_gradient x error))
    /\ shape_of (sigmoid_gradient x error) = shape_of x
    /\ (forall i j,
          (i < nrows (shape_of x))%nat -> (j < ncols (shape_of x))%nat ->
          get (sigmoid_gradient x error) i j
          = get error i j
            * (1 / (1 + np_exp (- get x i j))
               * (1 - 1 / (1 + np_exp (- get x i j))))).
Proof.
  intros M self x error Hwf Hs.
  split; [reflexivity|].
  split; [intros i j Hi Hj; now rewrite get_umap|].
  split; [now apply Sigmoid_backward_same_shape|].
  split; [apply shape_tabulate|].
  intros i j Hi Hj. unfold sigmoid_gradient.
  now rewrite get_tabulate.
Qed.

#[local] Existing Instance SeriesExp.libm.

(** C7 on a row of two elements, with the series exponential. *)
Lemma Sigmoid_forward_backward_witness :
  wf (Mat 1 2 [[0; 1]])
  /\ shape_of (Mat 1 2 [[1; 2]]) = shape_of (Mat 1 2 [[0; 1]])
  /\ Sigmoid.backward
       (fst (Sigmoid.forward Sigmoid.__init__ (Mat 1 2 [[0; 1]])))
       (Mat 1 2 [[1; 2]])
     = (Sigmoid.mk (Some (Mat 1 2 [[0; 1]])),
        Ok (sigmoid_gradient (Mat 1 2 [[0; 1]]) (Mat 1 2 [[1; 2]]))).
Proof.
  assert (Hwf : wf (Mat 1 2 [[0; 1]])).
  { split; [reflexivity|]. constructor; [reflexivity|constructor]. }
  split; [exact Hwf|]. split; [reflexivity|].
  exact (proj1 (proj2 (proj2
           (Sigmoid_forward_backward SeriesExp.libm Sigmoid.__init__
              (Mat 1 2 [[0; 1]]) (Mat 1 2 [[1; 2]]) Hwf eq_refl)))).
Defined.

End SigmoidClaims.

Section ReLUClaims.
Open Scope float_scope.

(** C8, as the code has it. ReLU acts on each element [x] of its input.
    For [x > 0], [forward] returns [x] and the following [backward]
    returns the error element unchanged.  For [x < 0], [forward] returns
    0.0 and [backward] returns [error * 0.0], which is a zero whenever the
    error element is finite.  For [x] equal to zero the indicator of
    [x >= 0] is 1.0 and [backward] returns [error * 1.0], the error
    element itself. *)
Theorem ReLU_piecewise :
  forall (self : ReLU.t) (x error : ndarray),
    wf x ->
    shape_of error = shape_of x ->
    ReLU.forward self x = (ReLU.mk (Some x), Ok (umap (fmaximum 0) x))
    /\ ReLU.backward (fst (ReLU.forward self x)) error
       = (ReLU.mk (Some x), Ok (relu_gradient x error))
    /\ forall i j,
         (i < nrows (shape_of x))%nat -> (j < ncols (shape_of x))%nat ->
         ((0 <? get x i j) = true ->
            get (umap (fmaximum 0) x) i j = get x i j
            /\ get (relu_gradient x error) i j = get error i j)
         /\ ((get x i j <? 0) = true ->
               get (umap (fmaximum 0) x) i j = 0
               /\ get (relu_gradient x error) i j = get error i j * 0
               /\ (is_finite (get error i j) = true ->
                   is_zero (get (relu_gradient x error) i j) = true))
         /\ ((get x i j =? 0) = true ->
               get (relu_gradient x error) i j = get error i j * 1
               /\ get (relu_gradient x error) i j = get error i j).
Proof.
  intros self x error Hwf Hs.
  split; [reflexivity|].
  split; [now apply ReLU_backward_same_shape|].
  intros i j Hi Hj.
  assert (Hg : get (relu_gradient x error) i j
               = get error i j * indicator_ge0 (get x i j)).
  { unfold relu_gradient. now rewrite get_tabulate. }
  assert (Hy : get (umap (fmaximum 0) x) i j = fmaximum 0 (get x i j)).
  { now apply get_umap. }
  rewrite Hg, Hy.
  split; [|split]; intros Hx.
  - destruct (relu_pos Hx) as [-> ->]. split; [reflexivity|apply mul_1_r].
  - destruct (relu_neg Hx) as [-> ->].
    split; [reflexivity|]. split; [reflexivity|apply mul_0_r_finite].
  - destruct (relu_zero Hx) as [_ ->]. split; [reflexivity|apply mul_1_r].
Qed.

(** C8 on a row holding a negative, a zero and a positive element. *)
Lemma ReLU_piecewise_witness :
  wf (Mat 1 3 [[-1; 0; 2]])
  /\ shape_of (Mat 1 3 [[5; 6; 7]]) = shape_of (Mat 1 3 [[-1; 0; 2]])
  /\ ReLU.backward (fst (ReLU.forward ReLU.__init__ (Mat 1 3 [[-1; 0; 2]])))
                   (Mat 1 3 [[5; 6; 7]])
     = (ReLU.mk (Some (Mat 1 3 [[-1; 0; 2]])),
        Ok (relu_gradient (Mat 1 3 [[-1; 0; 2]]) (Mat 1 3 [[5; 6; 7]]))).
Proof.
  assert (Hwf : wf (Mat 1 3 [[-1; 0; 2]])).
  { split; [reflexivity|]. constructor; [reflexivity|constructor]. }
  split; [exact Hwf|]. split; [reflexivity|].
  exact (proj1 (proj2
           (ReLU_piecewise ReLU.__init__
              (Mat 1 3 [[-1; 0; 2]]) (Mat 1 3 [[5; 6; 7]]) Hwf eq_refl))).
Defined.

(** C8 as stated fails where the error is not finite: for the input
    [[-1.0]] and the error [[inf]], [backward] returns [[nan]], which is
    not a zero. *)
Lemma ReLU_negative_input_counterexample :
  (-1 <? 0) = true
  /\ snd (ReLU.forward ReLU.__init__ (Mat 1 1 [[-1]])) = Ok (Mat 1 1 [[0]])
  /\ snd (ReLU.backward (fst (ReLU.forward ReLU.__init__ (Mat 1 1 [[-1]])))
                        (Mat 1 1 [[infinity]]))
     = Ok (Mat 1 1 [[nan]])
  /\ is_zero nan = false.
Proof.
  split; [reflexivity|]. split; [reflexivity|]. split; reflexivity.
Qed.

End ReLUClaims.

Section LayerClaims.
Open Scope float_scope.

(** Only [forward] writes the cache. *)
Lemma backward_keeps_cache (M : Libm) (S : Summation) (l : layer)
    (error : ndarray) :
  cache_of (fst (backward l error)) = cache_of l.
Proof.
  destruct l as [s|s|s|s]; cbn; try reflexivity.
  unfold Linear.backward.
  destruct (sum0 error) as [bg|e]; [|reflexivity].
  destruct (aT <- Linear.cached_T (Linear.set_bias_gradients s bg) ;;
            dot aT error); reflexivity.
Qed.

Lemma only_backward_keeps_cache (M : Libm) (S : Summation) (cs : list call)
    (l : layer) :
  only_backward cs = true -> cache_of (run l cs) = cache_of l.
Proof.
  revert l. induction cs as [|c cs IH]; intros l Hcs; [reflexivity|].
  cbn [only_backward forallb] in Hcs. apply andb_true_iff in Hcs.
  destruct Hcs as [Hc Hcs]. destruct c as [x|e]; [discriminate|].
  unfold run. cbn [fold_left]. fold (run (step l (Backward e)) cs).
  rewrite (IH _ Hcs). cbn [step]. apply backward_keeps_cache.
Qed.

(** [np.sum(error, 0)] returns for every array. *)
Lemma sum0_returns (S : Summation) (error : ndarray) :
  exists bg, sum0 error = Ok bg.
Proof. destruct error; eexists; reflexivity. Qed.

(** [backward] on an empty cache: what is raised, and the state left. *)
Lemma backward_empty_cache (M : Libm) (S : Summation) (l : layer)
    (error : ndarray) :
  cache_of l = None ->
  match l with
  | LinearL s =>
      exists bg, sum0 error = Ok bg
                 /\ backward l error
                    = (LinearL (Linear.set_bias_gradients s bg),
                       Raise AttributeError)
  | _ => backward l error = (l, Raise TypeError)
  end.
Proof.
  destruct l as [s|s|s|s]; cbn; intros Hc.
  - destruct (sum0_returns S error) as [bg Hbg]. exists bg.
    split; [exact Hbg|].
    unfold lift, Linear.backward. rewrite Hbg.
    unfold Linear.cached_T, Linear.set_bias_gradients.
    cbn [Linear._cached_activations]. rewrite Hc. reflexivity.
  - unfold lift, Sigmoid.backward, Sigmoid._sigmoid_cached.
    rewrite Hc. reflexivity.
  - unfold lift, Tanh.backward, Tanh._tanh_cached. rewrite Hc. reflexivity.
  - unfold lift, ReLU.backward, ReLU.cached_ge0. rewrite Hc. reflexivity.
Qed.

(** C5, as the code has it. A layer on which [forward] has never been
    called (a freshly constructed layer, after any number of [backward]
    calls) has an empty cache, and [backward] on an empty cache raises
    instead of returning an array.  No statement checks the cache: the
    element-wise layers raise TypeError on the first operator applied to
    the missing cache and leave the layer as it was; the Linear layer
    first overwrites [_bias_gradients] with [np.sum(error, 0)] and then
    raises AttributeError on the transpose of the missing cache. *)
Theorem backward_before_forward_raises :
  forall (M : Libm) (S : Summation) (l : layer) (cs : list call)
         (error : ndarray),
    cache_of l = None ->
    only_backward cs = true ->
    cache_of (run l cs) = None
    /\ is_ok (snd (backward (run l cs) error)) = false
    /\ match run l cs with
       | LinearL s =>
           exists bg, sum0 error = Ok bg
                      /\ backward (run l cs) error
                         = (LinearL (Linear.set_bias_gradients s bg),
                            Raise AttributeError)
       | _ => backward (run l cs) error = (run l cs, Raise TypeError)
       end.
Proof.
  intros M S l cs error Hl Hcs.
  assert (Hc : cache_of (run l cs) = None).
  { rewrite only_backward_keeps_cache by assumption. exact Hl. }
  split; [exact Hc|].
  pose proof (backward_empty_cache M S (run l cs) error Hc) as Hb.
  split; [|exact Hb].
  destruct (run l cs) as [s|s|s|s].
  - destruct Hb as [bg [_ ->]]. reflexivity.
  - now rewrite Hb.
  - now rewrite Hb.
  - now rewrite Hb.
Qed.

End LayerClaims.

Section LayerWitnesses.
Open Scope float_scope.
#[local] Existing Instance SeriesExp.libm.
#[local] Existing Instance Sequential.summation.

(** C5 on the freshly constructed scenario layer, after one failed
    [backward]. *)
Lemma backward_before_forward_raises_witness :
  cache_of (LinearL Scenario.dense) = None
  /\ only_backward [Backward Scenario.error] = true
  /\ is_ok (snd (backward (run (LinearL Scenario.dense)
                               [Backward Scenario.error])
                          Scenario.error)) = false.
Proof.
  split; [reflexivity|]. split; [reflexivity|].
  exact (proj1 (proj2
           (backward_before_forward_raises SeriesExp.libm
              Sequential.summation
              (LinearL Scenario.dense) [Backward Scenario.error]
              Scenario.error eq_refl eq_refl))).
Defined.

(** C5 as stated fails: nothing detects the empty cache before work is
    done.  On the freshly constructed scenario layer, whose bias gradient
    is [[0.0]], [backward([[1.0]])] raises AttributeError only after it
    has stored the bias gradient [1.0]: the layer is not as it was. *)
Lemma backward_before_forward_counterexample :
  Linear._cached_activations Scenario.dense = None
  /\ Linear._bias_gradients Scenario.dense = Mat 1 1 [[0]]
  /\ snd (Linear.backward Scenario.dense Scenario.error)
     = Raise AttributeError
  /\ Linear._bias_gradients
       (fst (Linear.backward Scenario.dense Scenario.error)) = Vec [1]
  /\ fst (Linear.backward Scenario.dense Scenario.error) <> Scenario.dense.
Proof.
  split; [reflexivity|]. split; [reflexivity|]. split; [reflexivity|].
  split; [reflexivity|]. intros Heq.
  apply (f_equal Linear._bias_gradients) in Heq. discriminate Heq.
Qed.

End LayerWitnesses.

Section ShapeClaims.
Open Scope float_scope.

(** The outcome of [backward] on an element-wise layer holding the cache
    [c] is that of the last product, [error * derivative], where the
    derivative has the shape of [c]. *)
Lemma elementwise_backward (M : Libm) (S : Summation) (l : layer)
    (c error : ndarray) :
  elementwise l = true ->
  cache_of l = Some c ->
  exists d, shape_of d = shape_of c
            /\ backward l error = (l, multiply error d).
Proof.
  destruct l as [s|s|s|s]; cbn [elementwise cache_of]; intros He Hc;
    try discriminate; destruct s as [c0]; cbn in Hc; subst c0.
  - exists (tabulate (shape_of c)
              (fun i j => get (Sigmoid._sigmoid c) i j
                          * get (umap (fun v => 1 - v) (Sigmoid._sigmoid c)) i j)).
    split; [apply shape_tabulate|].
    cbn. unfold lift, Sigmoid.backward, Sigmoid._sigmoid_cached.
    cbn [Sigmoid.cached_input bind fst snd]. unfold multiply at 1.
    rewrite binop_same_shape
      by (unfold Sigmoid._sigmoid; now rewrite !shape_umap).
    unfold Sigmoid._sigmoid at 1. rewrite shape_umap. reflexivity.
  - exists (umap (fun v => 1 - v) (umap (fun v => v * v) (Tanh._tanh c))).
    split; [unfold Tanh._tanh; now rewrite !shape_umap|reflexivity].
  - exists (umap indicator_ge0 c).
    split; [apply shape_umap|reflexivity].
Qed.

(** C6, as the code has it. A Linear [forward] whose input has a last
    dimension other than in_size raises ValueError and leaves the layer as
    it was.  An element-wise layer's [backward] raises ValueError exactly
    when the shape of the error cannot be broadcast against the shape of
    the cached input; when the two shapes differ but can be broadcast
    (a dimension of one of them is 1, or one has lower rank), it returns
    an array of the broadcast shape. *)
Theorem shape_mismatch_outcomes :
  forall (M : Libm) (S : Summation),
    (forall (in_size out_size batch k : nat) (W X : list (list float))
            (b wg bg : ndarray) (c : option ndarray),
        k <> in_size ->
        Linear.forward (Linear.mk (Mat in_size out_size W) b c wg bg)
                       (Mat batch k X)
        = (Linear.mk (Mat in_size out_size W) b c wg bg, Raise ValueError))
    /\ (forall (in_size out_size : nat) (W : list (list float))
               (x : list float) (b wg bg : ndarray) (c : option ndarray),
           length x <> in_size ->
           Linear.forward (Linear.mk (Mat in_size out_size W) b c wg bg)
                          (Vec x)
           = (Linear.mk (Mat in_size out_size W) b c wg bg, Raise ValueError))
    /\ (forall (l : layer) (c error : ndarray),
           elementwise l = true ->
           cache_of l = Some c ->
           match broadcast_shapes (shape_of error) (shape_of c) with
           | None => backward l error = (l, Raise ValueError)
           | Some s => exists g, backward l error = (l, Ok g)
                                 /\ shape_of g = s
           end).
Proof.
  intros M S. split; [|split].
  - intros in_size out_size batch k W X b wg bg c Hk.
    unfold Linear.forward. cbn [Linear.weights].
    now rewrite dot_Mat_Mat_mismatch.
  - intros in_size out_size W x b wg bg c Hx.
    unfold Linear.forward. cbn [Linear.weights dot].
    destruct (Nat.eqb_spec (length x) in_size); [contradiction|reflexivity].
  - intros l c error He Hc.
    destruct (elementwise_backward M S l error He Hc) as [d [Hd ->]].
    pose proof (binop_shape PrimFloat.mul error d) as Hb.
    rewrite Hd in Hb. fold multiply in Hb.
    destruct (broadcast_shapes (shape_of error) (shape_of c)) as [s|].
    + destruct Hb as [g [-> [Hg _]]]. exists g. split; [reflexivity|exact Hg].
    + now rewrite Hb.
Qed.

End ShapeClaims.

Section ShapeWitnesses.
Open Scope float_scope.
#[local] Existing Instance SeriesExp.libm.
#[local] Existing Instance Sequential.summation.

(** C6 on a Linear layer expecting two features and given three, and on
    a ReLU layer holding a (2, 2) input and given errors of shape (1, 2)
    and (3, 2). *)
Lemma shape_mismatch_outcomes_witness :
  (3%nat <> 2%nat
   /\ Linear.forward Scenario.dense (Mat 1 3 [[1; 1; 1]])
      = (Scenario.dense, Raise ValueError))
  /\ (elementwise (ReLUL (ReLU.mk (Some (Mat 2 2 [[1; 2]; [3; 4]])))) = true
      /\ cache_of (ReLUL (ReLU.mk (Some (Mat 2 2 [[1; 2]; [3; 4]]))))
         = Some (Mat 2 2 [[1; 2]; [3; 4]])
      /\ (exists g,
            backward (ReLUL (ReLU.mk (Some (Mat 2 2 [[1; 2]; [3; 4]]))))
                     (Mat 1 2 [[5; 7]])
            = (ReLUL (ReLU.mk (Some (Mat 2 2 [[1; 2]; [3; 4]]))), Ok g)
            /\ shape_of g = Sh2 2 2)
      /\ backward (ReLUL (ReLU.mk (Some (Mat 2 2 [[1; 2]; [3; 4]]))))
                  (Mat 3 2 [[5; 7]; [5; 7]; [5; 7]])
         = (ReLUL (ReLU.mk (Some (Mat 2 2 [[1; 2]; [3; 4]]))),
            Raise ValueError)).
Proof.
  assert (Hk : 3%nat <> 2%nat) by discriminate.
  split; [split; [exact Hk|]|].
  - exact (proj1 (shape_mismatch_outcomes SeriesExp.libm Sequential.summation)
             2%nat 1%nat 1%nat 3%nat [[1]; [2]] [[1; 1; 1]]
             (Mat 1 1 [[0]]) (Mat 2 1 [[0]; [0]]) (Mat 1 1 [[0]]) None Hk).
  - split; [reflexivity|]. split; [reflexivity|]. split.
    + exact (proj2 (proj2 (shape_mismatch_outcomes SeriesExp.libm Sequential.summation))
               (ReLUL (ReLU.mk (Some (Mat 2 2 [[1; 2]; [3; 4]]))))
               (Mat 2 2 [[1; 2]; [3; 4]]) (Mat 1 2 [[5; 7]])
               eq_refl eq_refl).
    + exact (proj2 (proj2 (shape_mismatch_outcomes SeriesExp.libm Sequential.summation))
               (ReLUL (ReLU.mk (Some (Mat 2 2 [[1; 2]; [3; 4]]))))
               (Mat 2 2 [[1; 2]; [3; 4]]) (Mat 3 2 [[5; 7]; [5; 7]; [5; 7]])
               eq_refl eq_refl).
Defined.

(** C6 as stated fails: a ReLU layer that cached an input of shape (2, 2)
    accepts an error of shape (1, 2) and returns an array of shape (2, 2)
    in which the one row of the error is used twice. *)
Lemma elementwise_backward_broadcast_counterexample :
  shape_of (Mat 1 2 [[5; 7]]) <> shape_of (Mat 2 2 [[1; 2]; [3; 4]])
  /\ backward (fst (forward (ReLUL ReLU.__init__) (Mat 2 2 [[1; 2]; [3; 4]])))
              (Mat 1 2 [[5; 7]])
     = (ReLUL (ReLU.mk (Some (Mat 2 2 [[1; 2]; [3; 4]]))),
        Ok (Mat 2 2 [[5; 7]; [5; 7]])).
Proof.
  split; [discriminate|reflexivity].
Qed.

End ShapeWitnesses.

Section FrameClaims.
Open Scope float_scope.

Lemma Linear_forward_frame (S : Summation) (self : Linear.t) (x : ndarray) :
  Linear.weights (fst (Linear.forward self x)) = Linear.weights self
  /\ Linear.biases (fst (Linear.forward self x)) = Linear.biases self.
Proof.
  unfold Linear.forward.
  destruct (xw <- dot x (Linear.weights self) ;; add xw (Linear.biases self));
    split; reflexivity.
Qed.

Lemma Linear_backward_frame (S : Summation) (self : Linear.t)
    (error : ndarray) :
  Linear.weights (fst (Linear.backward self error)) = Linear.weights self
  /\ Linear.biases (fst (Linear.backward self error)) = Linear.biases self.
Proof.
  unfold Linear.backward.
  destruct (sum0 error) as [bg|e]; [|split; reflexivity].
  destruct (aT <- Linear.cached_T (Linear.set_bias_gradients self bg) ;;
            dot aT error); split; reflexivity.
Qed.

Lemma Linear_step_frame (S : Summation) (self : Linear.t) (c : call) :
  Linear.weights (step self c) = Linear.weights self
  /\ Linear.biases (step self c) = Linear.biases self.
Proof.
  destruct c as [x|e]; cbn [step forward backward Linear_Activation].
  - apply Linear_forward_frame.
  - apply Linear_backward_frame.
Qed.

(** C9. No call of [forward] or [backward] on a Linear layer, returning or
    raising, changes [weights] or [biases]: after any sequence of calls
    they are what they were before it, and on a constructed layer they
    are the initialiser's weights and the zero row of the constructor. *)
Theorem Linear_parameters_never_modified :
  (forall (S : Summation) (self : Linear.t) (cs : list call),
      Linear.weights (run self cs) = Linear.weights self
      /\ Linear.biases (run self cs) = Linear.biases self)
  /\ (forall (S : Summation) (I : Initialiser) (in_size out_size : nat)
             (method : string) (cs : list call),
         Linear.weights (run (Linear.__init__ in_size out_size method) cs)
         = initialise_weights (in_size, out_size) method
         /\ Linear.biases (run (Linear.__init__ in_size out_size method) cs)
            = zeros (Sh2 1 out_size)).
Proof.
  assert (Hrun : forall (S : Summation) (cs : list call) (self : Linear.t),
             Linear.weights (run self cs) = Linear.weights self
             /\ Linear.biases (run self cs) = Linear.biases self).
  { intros S. induction cs as [|c cs IH]; intros self; [split; reflexivity|].
    unfold run. cbn [fold_left]. fold (run (step self c) cs).
    destruct (IH (step self c)) as [Hw Hb].
    destruct (Linear_step_frame S self c) as [Hw' Hb'].
    rewrite Hw, Hb, Hw', Hb'. split; reflexivity. }
  split.
  - intros S self cs. apply Hrun.
  - intros S I in_size out_size method cs.
    destruct (Hrun S cs (Linear.__init__ in_size out_size method)) as [-> ->].
    split; reflexivity.
Qed.

(** A second [backward] on a Linear layer repeats the first. *)
Lemma Linear_backward_twice (S : Summation) (self : Linear.t)
    (error : ndarray) :
  Linear.backward (fst (Linear.backward self error)) error
  = Linear.backward self error.
Proof.
  destruct self as [w b c wg bg]. unfold Linear.backward.
  destruct (sum0 error) as [g|e]; [|reflexivity].
  unfold Linear.cached_T, Linear.set_bias_gradients,
    Linear.set_weight_gradients.
  cbn [Linear._cached_activations Linear.weights Linear.biases
       Linear._weight_gradients Linear._bias_gradients].
  destruct c as [a|]; cbn [bind fst]; [|reflexivity].
  destruct (dot (transpose a) error) as [wg'|e] eqn:Hd;
    cbn [fst bind Linear._cached_activations Linear.weights Linear.biases
         Linear._weight_gradients Linear._bias_gradients];
    rewrite Hd; reflexivity.
Qed.

(** C10. On every layer and for every error, a second [backward] with the
    same error has the outcome of the first (the same array, or the same
    exception) and leaves the layer in the state the first call left it
    in; no [backward] call changes the cache. *)
Theorem backward_idempotent :
  forall (M : Libm) (S : Summation) (l : layer) (error : ndarray),
    backward (fst (backward l error)) error = backward l error
    /\ cache_of (fst (backward l error)) = cache_of l.
Proof.
  intros M S l error. split; [|apply backward_keeps_cache].
  destruct l as [s|s|s|s];
    cbn [backward layer_Activation Linear_Activation Sigmoid_Activation
         Tanh_Activation ReLU_Activation lift fst snd];
    try reflexivity.
  rewrite Linear_backward_twice. reflexivity.
Qed.

End FrameClaims.


(** ** Further properties of the layers *)

Section TanhClaims.
Open Scope float_scope.

Lemma umap_umap (f g : float -> float) (a : ndarray) :
  umap f (umap g a) = umap (fun v => f (g v)) a.
Proof.
  destruct a as [v|l|r c rows]; cbn [umap]; f_equal.
  - apply map_map.
  - rewrite map_map. apply map_ext. intros row. apply map_map.
Qed.

(** [Tanh.forward(x)] returns [-1 + 2 / (1 + exp(-2 * x))] element by
    element and stores [x] in the cache.  A following [backward(error)],
    for an error of the shape of [x], recomputes [t = tanh(x)] from the
    cache and returns [error * (1 - t * t)] element by element. *)
Theorem Tanh_forward_backward :
  forall (M : Libm) (self : Tanh.t) (x error : ndarray),
    wf x ->
    shape_of error = shape_of x ->
    Tanh.forward self x = (Tanh.mk (Some x), Ok (umap Tanh.tanh1 x))
    /\ (forall i j,
          (i < nrows (shape_of x))%nat -> (j < ncols (shape_of x))%nat ->
          get (umap Tanh.tanh1 x) i j
          = -1 + 2 / (1 + np_exp (-2 * get x i j)))
    /\ Tanh.backward (fst (Tanh.forward self x)) error
       = (Tanh.mk (Some x), Ok (tanh_gradient x error))
    /\ (forall i j,
          (i < nrows (shape_of x))%nat -> (j < ncols (shape_of x))%nat ->
          get (tanh_gradient x error) i j
          = get error i j
            * (1 - Tanh.tanh1 (get x i j) * Tanh.tanh1 (get x i j))).
Proof.
  intros M self x error Hwf Hs.
  split; [reflexivity|].
  split; [intros i j Hi Hj; now rewrite get_umap|].
  split.
  - unfold Tanh.forward, Tanh.backward, Tanh._tanh_cached, Tanh._tanh.
    cbn [fst Tanh._cached_input bind]. rewrite !umap_umap.
    rewrite multiply_by_local_derivative by assumption. reflexivity.
  - intros i j Hi Hj. unfold tanh_gradient. now rewrite get_tabulate.
Qed.

#[local] Existing Instance SeriesExp.libm.

(** The Tanh property on a row of two elements, with the series
    exponential. *)
Lemma Tanh_forward_backward_witness :
  wf (Mat 1 2 [[0; 1]])
  /\ shape_of (Mat 1 2 [[1; 2]]) = shape_of (Mat 1 2 [[0; 1]])
  /\ Tanh.backward (fst (Tanh.forward Tanh.__init__ (Mat 1 2 [[0; 1]])))
                   (Mat 1 2 [[1; 2]])
     = (Tanh.mk (Some (Mat 1 2 [[0; 1]])),
        Ok (tanh_gradient (Mat 1 2 [[0; 1]]) (Mat 1 2 [[1; 2]]))).
Proof.
  assert (Hwf : wf (Mat 1 2 [[0; 1]])).
  { split; [reflexivity|]. constructor; [reflexivity|constructor]. }
  split; [exact Hwf|]. split; [reflexivity|].
  exact (proj1 (proj2 (proj2
           (Tanh_forward_backward SeriesExp.libm Tanh.__init__
              (Mat 1 2 [[0; 1]]) (Mat 1 2 [[1; 2]]) Hwf eq_refl)))).
Defined.

End TanhClaims.

Section CacheClaims.
Open Scope float_scope.

(** What [forward] leaves in the cache.  Sigmoid, Tanh and ReLU store
    their input before anything is computed, and return for every array.
    The Linear layer stores its output, after computing it: when the
    product or the addition raises, the layer is left as it was. *)
Theorem forward_overwrites_cache :
  forall (M : Libm) (S : Summation) (l : layer) (x : ndarray),
    match l with
    | LinearL _ =>
        match snd (forward l x) with
        | Ok y => cache_of (fst (forward l x)) = Some y
        | Raise _ => fst (forward l x) = l
        end
    | _ =>
        is_ok (snd (forward l x)) = true
        /\ cache_of (fst (forward l x)) = Some x
    end.
Proof.
  intros M S l x. destruct l as [s|s|s|s]; cbn; try (split; reflexivity).
  unfold Linear.forward.
  destruct (xw <- dot x (Linear.weights s) ;; add xw (Linear.biases s));
    reflexivity.
Qed.

(** On an element-wise layer, [backward] after two [forward] calls is
    [backward] after the second call alone. *)
Theorem backward_reads_latest_forward :
  forall (M : Libm) (S : Summation) (l : layer) (x1 x2 error : ndarray),
    elementwise l = true ->
    backward (fst (forward (fst (forward l x1)) x2)) error
    = backward (fst (forward l x2)) error.
Proof.
  intros M S l x1 x2 error He.
  destruct l as [s|s|s|s]; [discriminate| | | ]; reflexivity.
Qed.

End CacheClaims.

Section CacheWitnesses.
Open Scope float_scope.
#[local] Existing Instance SeriesExp.libm.
#[local] Existing Instance Sequential.summation.

(** Two inputs of opposite sign on a ReLU layer: the gradient follows the
    second. *)
Lemma backward_reads_latest_forward_witness :
  elementwise (ReLUL ReLU.__init__) = true
  /\ backward (fst (forward (fst (forward (ReLUL ReLU.__init__)
                                          (Mat 1 1 [[-1]])))
                            (Mat 1 1 [[2]])))
              (Mat 1 1 [[5]])
     = backward (fst (forward (ReLUL ReLU.__init__) (Mat 1 1 [[2]])))
                (Mat 1 1 [[5]]).
Proof.
  split; [reflexivity|].
  exact (backward_reads_latest_forward SeriesExp.libm Sequential.summation
           (ReLUL ReLU.__init__) (Mat 1 1 [[-1]]) (Mat 1 1 [[2]])
           (Mat 1 1 [[5]]) eq_refl).
Defined.

End CacheWitnesses.

Section PartialFailure.
Open Scope float_scope.

(** A Linear [backward] whose error has another number of rows than the
    cache raises ValueError at the weight-gradient product, after the bias
    gradient has been overwritten with [np.sum(error, 0)]: the layer
    keeps its weights, biases, cache and weight gradient, and holds the
    new bias gradient. *)
Theorem Linear_backward_batch_mismatch :
  forall (S : Summation) (in_size out_size batch batch' : nat)
         (W Y E : list (list float)) (b wg bg : ndarray),
    batch <> batch' ->
    sum0 (Mat batch' out_size E) = Ok (column_sums batch' out_size E)
    /\ Linear.backward
         (Linear.mk (Mat in_size out_size W) b (Some (Mat batch out_size Y))
                    wg bg)
         (Mat batch' out_size E)
       = (Linear.mk (Mat in_size out_size W) b (Some (Mat batch out_size Y))
                    wg (column_sums batch' out_size E),
          Raise ValueError).
Proof.
  intros S in_size out_size batch batch' W Y E b wg bg Hb.
  split; [reflexivity|].
  unfold Linear.backward. rewrite sum0_Mat.
  unfold Linear.cached_T, Linear.set_bias_gradients.
  cbn [Linear._cached_activations bind transpose tabulate].
  now rewrite dot_Mat_Mat_mismatch.
Qed.

End PartialFailure.

Section PartialFailureWitness.
Open Scope float_scope.
#[local] Existing Instance Sequential.summation.

(** The scenario layer, after [forward] on one row, given an error of two
    rows. *)
Lemma Linear_backward_batch_mismatch_witness :
  1%nat <> 2%nat
  /\ Linear.backward Scenario.after_forward (Mat 2 1 [[1]; [1]])
     = (Linear.mk (Mat 2 1 [[1]; [2]]) (Mat 1 1 [[0]]) (Some (Mat 1 1 [[3]]))
                  (Mat 2 1 [[0]; [0]]) (Vec [2]),
        Raise ValueError).
Proof.
  assert (Hb : 1%nat <> 2%nat) by discriminate.
  split; [exact Hb|].
  exact (proj2 (@Linear_backward_batch_mismatch Sequential.summation
                  2 1 1 2 [[1]; [2]] [[3]] [[1]; [1]]
                  (Mat 1 1 [[0]]) (Mat 2 1 [[0]; [0]]) (Mat 1 1 [[0]]) Hb)).
Defined.

End PartialFailureWitness.

(** ** Range and fixed points of ReLU *)

Section ReLURange.
Open Scope float_scope.

Lemma fmaximum_0_cases (v : float) :
  ((v <? 0) = true /\ fmaximum 0 v = 0)
  \/ ((v <? 0) = false /\ fmaximum 0 v = v).
Proof.
  unfold fmaximum. destruct (v <? 0); [left|right]; split; reflexivity.
Qed.

(** No value of [np.maximum(0, v)] is below zero. *)
Lemma fmaximum_0_not_negative (v : float) : (fmaximum 0 v <? 0) = false.
Proof.
  destruct (fmaximum_0_cases v) as [[_ ->]|[Hlt ->]]; [reflexivity|].
  exact Hlt.
Qed.

Lemma fmaximum_0_idempotent (v : float) :
  fmaximum 0 (fmaximum 0 v) = fmaximum 0 v.
Proof.
  destruct (fmaximum_0_cases v) as [[_ ->]|[Hlt ->]]; [reflexivity|].
  unfold fmaximum. now rewrite Hlt.
Qed.

(** A NaN compares false with everything. *)
Lemma nan_compares_false (v : float) :
  is_nan v = true -> (v <? 0) = false /\ (0 <=? v) = false.
Proof.
  unfold is_nan. rewrite eqb_spec, ltb_spec, leb_spec, SF_zero.
  destruct (Prim2SF v) as [s|s| |s m e]; cbn.
  - destruct s; discriminate.
  - destruct s; discriminate.
  - intros _. split; reflexivity.
  - unfold SFeqb, SFcompare.
    destruct s; rewrite Z.compare_refl, ?Pos.compare_cont_refl,
      ?Pos.compare_refl; cbn; discriminate.
Qed.

(** [ReLU.forward] never returns a negative element, and applied to its
    own output it returns that output again. *)
Theorem ReLU_forward_range_and_fixed_point :
  forall (self self' : ReLU.t) (x : ndarray),
    wf x ->
    (forall i j,
        (i < nrows (shape_of x))%nat -> (j < ncols (shape_of x))%nat ->
        forall y, snd (ReLU.forward self x) = Ok y ->
                  (get y i j <? 0) = false)
    /\ (forall y, snd (ReLU.forward self x) = Ok y ->
                  snd (ReLU.forward self' y) = Ok y).
Proof.
  intros self self' x Hwf. split.
  - intros i j Hi Hj y Hy. cbn in Hy. injection Hy as <-.
    rewrite get_umap by assumption. apply fmaximum_0_not_negative.
  - intros y Hy. cbn in Hy. injection Hy as <-. cbn. f_equal.
    rewrite umap_umap.
    destruct x as [v|l|r c rows]; cbn [umap]; f_equal.
    + apply fmaximum_0_idempotent.
    + apply map_ext. intros v. apply fmaximum_0_idempotent.
    + apply map_ext. intros row. apply map_ext. intros v.
      apply fmaximum_0_idempotent.
Qed.

(** The range of ReLU on a row of mixed signs. *)
Lemma ReLU_forward_range_and_fixed_point_witness :
  wf (Mat 1 3 [[-1; 0; 2]])
  /\ snd (ReLU.forward ReLU.__init__ (Mat 1 3 [[-1; 0; 2]]))
     = Ok (Mat 1 3 [[0; 0; 2]])
  /\ snd (ReLU.forward ReLU.__init__ (Mat 1 3 [[0; 0; 2]]))
     = Ok (Mat 1 3 [[0; 0; 2]]).
Proof.
  assert (Hwf : wf (Mat 1 3 [[-1; 0; 2]])).
  { split; [reflexivity|]. constructor; [reflexivity|constructor]. }
  split; [exact Hwf|]. split; [reflexivity|].
  exact (proj2 (@ReLU_forward_range_and_fixed_point
                  ReLU.__init__ ReLU.__init__ (Mat 1 3 [[-1; 0; 2]]) Hwf)
           (Mat 1 3 [[0; 0; 2]]) eq_refl).
Defined.

(** Where the input of ReLU is a NaN, [forward] returns the NaN, and the
    following [backward] takes the comparison [NaN >= 0] as false: it
    returns [error * 0.0], a zero for every finite error element. *)
Theorem ReLU_nan_input :
  forall (self : ReLU.t) (x error : ndarray) (i j : nat),
    wf x ->
    shape_of error = shape_of x ->
    (i < nrows (shape_of x))%nat -> (j < ncols (shape_of x))%nat ->
    is_nan (get x i j) = true ->
    exists y g,
      ReLU.forward self x = (ReLU.mk (Some x), Ok y)
      /\ ReLU.backward (ReLU.mk (Some x)) error = (ReLU.mk (Some x), Ok g)
      /\ get y i j = get x i j
      /\ get g i j = get error i j * 0
      /\ (is_finite (get error i j) = true -> is_zero (get g i j) = true).
Proof.
  intros self x error i j Hwf Hs Hi Hj Hnan.
  exists (umap (fmaximum 0) x), (relu_gradient x error).
  split; [reflexivity|].
  split; [now apply ReLU_backward_same_shape|].
  destruct (nan_compares_false _ Hnan) as [H1 H2].
  assert (Hg : get (relu_gradient x error) i j = get error i j * 0).
  { unfold relu_gradient. rewrite get_tabulate by assumption.
    unfold indicator_ge0. now rewrite H2. }
  split.
  - rewrite get_umap by assumption. unfold fmaximum. now rewrite H1.
  - split; [exact Hg|]. rewrite Hg. apply mul_0_r_finite.
Qed.

(** A NaN between two numbers. *)
Lemma ReLU_nan_input_witness :
  exists y g,
    ReLU.forward ReLU.__init__ (Mat 1 3 [[1; nan; 2]])
    = (ReLU.mk (Some (Mat 1 3 [[1; nan; 2]])), Ok y)
    /\ ReLU.backward (ReLU.mk (Some (Mat 1 3 [[1; nan; 2]])))
                     (Mat 1 3 [[5; 6; 7]])
       = (ReLU.mk (Some (Mat 1 3 [[1; nan; 2]])), Ok g)
    /\ get y 0 1 = nan
    /\ get g 0 1 = 6 * 0
    /\ (is_finite 6 = true -> is_zero (get g 0 1) = true).
Proof.
  assert (Hwf : wf (Mat 1 3 [[1; nan; 2]])).
  { split; [reflexivity|]. constructor; [reflexivity|constructor]. }
  exact (@ReLU_nan_input ReLU.__init__ (Mat 1 3 [[1; nan; 2]])
           (Mat 1 3 [[5; 6; 7]]) 0%nat 1%nat Hwf eq_refl
           Nat.lt_0_1 (le_S 2 2 (le_n 2)) eq_refl).
Defined.

End ReLURange.

(** ** Sigmoid and Tanh where the exponential is 1, +inf or 0 *)

Section Saturation.
Open Scope float_scope.

(** The three values of [exp(-x)] that the logistic function maps to
    exact results: 1 (as at [x = 0]), +inf (overflow, for very negative
    [x]) and 0 (underflow, for very positive [x]).  [forward] returns
    0.5, 0.0 and 1.0 there, never a NaN, and [backward] returns
    [error * 0.25], [error * 0.0] and [error * 0.0]. *)
Theorem Sigmoid_special_values :
  forall (M : Libm) (self : Sigmoid.t) (x error : ndarray) (i j : nat),
    wf x ->
    shape_of error = shape_of x ->
    (i < nrows (shape_of x))%nat -> (j < ncols (shape_of x))%nat ->
    exists y g,
      Sigmoid.forward self x = (Sigmoid.mk (Some x), Ok y)
      /\ Sigmoid.backward (Sigmoid.mk (Some x)) error
         = (Sigmoid.mk (Some x), Ok g)
      /\ (np_exp (- get x i j) = 1 ->
          get y i j = 0.5 /\ get g i j = get error i j * 0.25)
      /\ (np_exp (- get x i j) = infinity ->
          get y i j = 0 /\ get g i j = get error i j * 0)
      /\ (np_exp (- get x i j) = 0 ->
          get y i j = 1 /\ get g i j = get error i j * 0).
Proof.
  intros M self x error i j Hwf Hs Hi Hj.
  exists (umap Sigmoid.sigmoid1 x), (sigmoid_gradient x error).
  split; [reflexivity|].
  split; [now apply Sigmoid_backward_same_shape|].
  unfold sigmoid_gradient.
  rewrite get_umap, get_tabulate by assumption.
  unfold Sigmoid.sigmoid1.
  split; [|split]; intros ->; split; reflexivity.
Qed.

(** [tanh] as the code computes it, at the same three values of
    [exp(-2x)]: [forward] returns 0.0, -1.0 and 1.0, and [backward]
    returns the error element itself at the first (the slope is 1) and
    [error * 0.0] at the other two. *)
Theorem Tanh_special_values :
  forall (M : Libm) (self : Tanh.t) (x error : ndarray) (i j : nat),
    wf x ->
    shape_of error = shape_of x ->
    (i < nrows (shape_of x))%nat -> (j < ncols (shape_of x))%nat ->
    exists y g,
      Tanh.forward self x = (Tanh.mk (Some x), Ok y)
      /\ Tanh.backward (Tanh.mk (Some x)) error = (Tanh.mk (Some x), Ok g)
      /\ (np_exp (-2 * get x i j) = 1 ->
          get y i j = 0 /\ get g i j = get error i j)
      /\ (np_exp (-2 * get x i j) = infinity ->
          get y i j = -1 /\ get g i j = get error i j * 0)
      /\ (np_exp (-2 * get x i j) = 0 ->
          get y i j = 1 /\ get g i j = get error i j * 0).
Proof.
  intros M self x error i j Hwf Hs Hi Hj.
  exists (umap Tanh.tanh1 x), (tanh_gradient x error).
  split; [reflexivity|].
  split.
  { unfold Tanh.backward, Tanh._tanh_cached, Tanh._tanh.
    cbn [Tanh._cached_input bind]. rewrite !umap_umap.
    rewrite multiply_by_local_derivative by assumption. reflexivity. }
  unfold tanh_gradient.
  rewrite get_umap, get_tabulate by assumption.
  unfold Tanh.tanh1.
  split; [|split]; intros ->; split; try reflexivity.
  change (1 - (-1 + 2 / (1 + 1)) * (-1 + 2 / (1 + 1))) with 1.
  apply mul_1_r.
Qed.

End Saturation.

Section SaturationWitnesses.
Open Scope float_scope.
#[local] Existing Instance ClampedExp.libm.

(** Sigmoid on zero, on a very negative and on a very positive input,
    with the clamped exponential: at the middle element [exp] overflows,
    the output is 0.0 and the gradient is [6 * 0.0]. *)
Lemma Sigmoid_special_values_witness :
  exists y g,
    Sigmoid.forward Sigmoid.__init__ (Mat 1 3 [[0; -1000; 1000]])
    = (Sigmoid.mk (Some (Mat 1 3 [[0; -1000; 1000]])), Ok y)
    /\ Sigmoid.backward (Sigmoid.mk (Some (Mat 1 3 [[0; -1000; 1000]])))
                        (Mat 1 3 [[5; 6; 7]])
       = (Sigmoid.mk (Some (Mat 1 3 [[0; -1000; 1000]])), Ok g)
    /\ np_exp (- -1000) = infinity
    /\ get y 0 1 = 0
    /\ get g 0 1 = 6 * 0.
Proof.
  assert (Hwf : wf (Mat 1 3 [[0; -1000; 1000]])).
  { split; [reflexivity|]. constructor; [reflexivity|constructor]. }
  destruct (@Sigmoid_special_values ClampedExp.libm Sigmoid.__init__
              (Mat 1 3 [[0; -1000; 1000]]) (Mat 1 3 [[5; 6; 7]]) 0%nat 1%nat
              Hwf eq_refl Nat.lt_0_1 (le_S 2 2 (le_n 2)))
    as [y [g [Hf [Hb [_ [Hinf _]]]]]].
  exists y, g.
  split; [exact Hf|]. split; [exact Hb|]. split; [reflexivity|].
  exact (Hinf eq_refl).
Defined.

(** Tanh on the same row: at the last element [exp] underflows, the
    output is 1.0 and the gradient is [7 * 0.0]. *)
Lemma Tanh_special_values_witness :
  exists y g,
    Tanh.forward Tanh.__init__ (Mat 1 3 [[0; -1000; 1000]])
    = (Tanh.mk (Some (Mat 1 3 [[0; -1000; 1000]])), Ok y)
    /\ Tanh.backward (Tanh.mk (Some (Mat 1 3 [[0; -1000; 1000]])))
                     (Mat 1 3 [[5; 6; 7]])
       = (Tanh.mk (Some (Mat 1 3 [[0; -1000; 1000]])), Ok g)
    /\ np_exp (-2 * 1000) = 0
    /\ get y 0 2 = 1
    /\ get g 0 2 = 7 * 0.
Proof.
  assert (Hwf : wf (Mat 1 3 [[0; -1000; 1000]])).
  { split; [reflexivity|]. constructor; [reflexivity|constructor]. }
  destruct (@Tanh_special_values ClampedExp.libm Tanh.__init__
              (Mat 1 3 [[0; -1000; 1000]]) (Mat 1 3 [[5; 6; 7]]) 0%nat 2%nat
              Hwf eq_refl Nat.lt_0_1 (le_n 3))
    as [y [g [Hf [Hb [_ [_ Hzero]]]]]].
  exists y, g.
  split; [exact Hf|]. split; [exact Hb|]. split; [reflexivity|].
  exact (Hzero eq_refl).
Defined.

(** The three values of the exponential are all taken by the clamped
    stand-in. *)
Fact ClampedExp_values :
  ClampedExp.exp (- 0) = 1
  /\ ClampedExp.exp (- -1000) = infinity
  /\ ClampedExp.exp (- 1000) = 0
  /\ ClampedExp.exp (-2 * 0) = 1
  /\ ClampedExp.exp (-2 * -1000) = infinity
  /\ ClampedExp.exp (-2 * 1000) = 0.
Proof. repeat split; vm_compute; reflexivity. Qed.

End SaturationWitnesses.

(** ** More on the Linear layer *)

Section LinearMore.
Open Scope float_scope.

(** [forward] on a rank-one input of the expected length. *)
Lemma Linear_forward_unbatched_aux (S : Summation) (in_size out_size : nat)
    (W B : list (list float)) (x : list float)
    (c : option ndarray) (wg bg : ndarray) :
  length x = in_size ->
  Linear.forward
    (Linear.mk (Mat in_size out_size W) (Mat 1 out_size B) c wg bg) (Vec x)
  = (Linear.mk (Mat in_size out_size W) (Mat 1 out_size B)
               (Some (affine_row in_size out_size W B x)) wg bg,
     Ok (affine_row in_size out_size W B x)).
Proof.
  intros Hx. subst in_size.
  unfold Linear.forward. cbn [Linear.weights Linear.biases dot].
  rewrite Nat.eqb_refl. cbn [bind]. unfold add, binop.
  rewrite shape_tabulate. cbn [shape_of broadcast_shapes].
  rewrite bdim_same. cbn [option_map].
  assert (E : tabulate (Sh2 1 out_size)
                (fun i j =>
                   bget (tabulate (Sh1 out_size)
                           (fun _ j0 =>
                              dot_element (Vec x) (Mat (length x) out_size W)
                                          0 j0))
                        i j
                   + bget (Mat 1 out_size B) i j)
              = affine_row (length x) out_size W B x).
  { apply (tabulate_ext (Sh2 1 out_size)). cbn [nrows ncols].
    intros i j Hi Hj. replace i with 0%nat by lia. f_equal.
    - rewrite bget_in_bounds
        by (rewrite shape_tabulate; cbn [nrows ncols]; lia).
      now rewrite get_tabulate1.
    - now rewrite bget_in_bounds by (cbn [shape_of nrows ncols]; lia). }
  rewrite E. reflexivity.
Qed.

(** [forward] on one unbatched sample.  A rank-one input of length
    in_size is accepted; the product with the weights has rank one and
    the (1, out_size) bias row makes the result, which is also cached, an
    array of rank two with a single row, whose element (0, j) is the sum
    over k of the products [x[k] * W[k, j]], added up as the library's
    plan for a vector-matrix product has it, plus [b[0, j]]. *)
Theorem Linear_forward_unbatched :
  forall (S : Summation) (in_size out_size : nat) (W B : list (list float))
         (x : list float) (c : option ndarray) (wg bg : ndarray),
    length x = in_size ->
    Linear.forward
      (Linear.mk (Mat in_size out_size W) (Mat 1 out_size B) c wg bg) (Vec x)
    = (Linear.mk (Mat in_size out_size W) (Mat 1 out_size B)
                 (Some (affine_row in_size out_size W B x)) wg bg,
       Ok (affine_row in_size out_size W B x))
    /\ shape_of (affine_row in_size out_size W B x) = Sh2 1 out_size
    /\ forall j, (j < out_size)%nat ->
         covers (dot_plan (Sh1 (length x)) (Sh2 in_size out_size) 0 j)
                in_size
         /\ get (affine_row in_size out_size W B x) 0 j
            = contract (dot_plan (Sh1 (length x)) (Sh2 in_size out_size) 0 j)
                       (fun k => nth k x 0)
                       (fun k => nth j (nth k W []) 0)
              + nth j (nth 0 B []) 0.
Proof.
  intros S in_size out_size W B x c wg bg Hx.
  split; [|split].
  - now apply Linear_forward_unbatched_aux.
  - apply shape_tabulate.
  - intros j Hj. split.
    + rewrite <- Hx. exact (dot_plan_covers (Sh1 (length x)) _ 0 j).
    + unfold affine_row. now rewrite get_tabulate2 by lia.
Qed.

(** An empty batch.  [forward] on an input of shape (0, in_size) returns
    the array of shape (0, out_size); the following [backward] on an
    error of shape (0, out_size) returns the array of shape (0, in_size)
    and overwrites both gradients with zeros. *)
Theorem Linear_empty_batch :
  forall (S : Summation) (in_size out_size : nat) (W B X E : list (list float))
         (c : option ndarray) (wg bg : ndarray),
    Linear.forward
      (Linear.mk (Mat in_size out_size W) (Mat 1 out_size B) c wg bg)
      (Mat 0 in_size X)
    = (Linear.mk (Mat in_size out_size W) (Mat 1 out_size B)
                 (Some (Mat 0 out_size [])) wg bg,
       Ok (Mat 0 out_size []))
    /\ Linear.backward
         (Linear.mk (Mat in_size out_size W) (Mat 1 out_size B)
                    (Some (Mat 0 out_size [])) wg bg)
         (Mat 0 out_size E)
       = (Linear.mk (Mat in_size out_size W) (Mat 1 out_size B)
                    (Some (Mat 0 out_size []))
                    (zeros (Sh2 out_size out_size)) (zeros (Sh1 out_size)),
          Ok (Mat 0 in_size [])).
Proof.
  intros S in_size out_size W B X E c wg bg. split.
  - rewrite forward_affine. reflexivity.
  - rewrite backward_typed.
    assert (Hwg : outputT_dot_error 0 out_size [] E
                  = zeros (Sh2 out_size out_size)).
    { apply (tabulate_ext (Sh2 out_size out_size)). intros i j _ _.
      apply eval_covers_0.
      exact (dot_plan_covers (Sh2 out_size 0) (Sh2 0 out_size) i j). }
    assert (Hbg : column_sums 0 out_size E = zeros (Sh1 out_size)).
    { apply (tabulate_ext (Sh1 out_size)). intros i j _ _.
      apply eval_covers_0.
      exact (sum_plan_covers (Sh2 0 out_size) j). }
    rewrite Hwg, Hbg. reflexivity.
Qed.

(** Gradients are overwritten, not accumulated: what [backward] returns
    does not depend on the gradients the layer held before, and when it
    returns an array neither does the state it leaves. *)
Theorem Linear_gradients_overwritten :
  forall (S : Summation) (w b wg bg wg' bg' error : ndarray)
         (c : option ndarray),
    snd (Linear.backward (Linear.mk w b c wg bg) error)
    = snd (Linear.backward (Linear.mk w b c wg' bg') error)
    /\ (is_ok (snd (Linear.backward (Linear.mk w b c wg bg) error)) = true ->
        fst (Linear.backward (Linear.mk w b c wg bg) error)
        = fst (Linear.backward (Linear.mk w b c wg' bg') error)).
Proof.
  intros S w b wg bg wg' bg' error c. unfold Linear.backward.
  destruct (sum0 error) as [g|e]; [|split; [reflexivity|discriminate]].
  unfold Linear.cached_T, Linear.set_bias_gradients,
    Linear.set_weight_gradients.
  cbn [Linear._cached_activations Linear.weights Linear.biases
       Linear._weight_gradients Linear._bias_gradients].
  destruct c as [a|]; cbn [bind]; [|split; [reflexivity|discriminate]].
  destruct (dot (transpose a) error) as [g'|e];
    cbn [fst snd]; split; try reflexivity; discriminate.
Qed.

(** An error of the right number of rows and the wrong width.  Both
    gradient statements of [backward] run, and leave a bias gradient of
    the error's width, [np.sum(error, 0)], and a weight gradient of shape
    (out_size, width), the product of the transposed cache and the
    error; the ValueError comes only from the last product. *)
Theorem Linear_backward_width_mismatch :
  forall (S : Summation) (in_size out_size batch width : nat)
         (W Y E : list (list float)) (b wg bg : ndarray),
    width <> out_size ->
    Linear.backward
      (Linear.mk (Mat in_size out_size W) b (Some (Mat batch out_size Y)) wg bg)
      (Mat batch width E)
    = (Linear.mk (Mat in_size out_size W) b (Some (Mat batch out_size Y))
                 (outputT_dot_wide_error batch out_size width Y E)
                 (column_sums batch width E),
       Raise ValueError)
    /\ sum0 (Mat batch width E) = Ok (column_sums batch width E)
    /\ dot (transpose (Mat batch out_size Y)) (Mat batch width E)
       = Ok (outputT_dot_wide_error batch out_size width Y E)
    /\ shape_of (outputT_dot_wide_error batch out_size width Y E)
       = Sh2 out_size width
    /\ shape_of (column_sums batch width E) = Sh1 width.
Proof.
  intros S in_size out_size batch width W Y E b wg bg Hw.
  split; [|split; [|split; [|split]]].
  - rewrite backward_gradients. cbn [transpose tabulate].
    now rewrite dot_Mat_Mat_mismatch.
  - reflexivity.
  - apply dot_transpose_l.
  - apply shape_tabulate.
  - apply shape_tabulate.
Qed.

(** A constructed layer.  When the initialiser returns an array of the
    requested shape (in_size, out_size), the first [forward] of the
    constructed layer on a batch of width in_size returns an array of
    shape (batch, out_size) whose element (i, j) is the sum over k of the
    products of row i of the input with column j of the initial weights,
    added up as the library's plan has it, plus the zero bias. *)
Theorem Linear_init_forward :
  forall (S : Summation) (I : Initialiser) (in_size out_size batch : nat)
         (method : string) (W X : list (list float)),
    initialise_weights (in_size, out_size) method = Mat in_size out_size W ->
    exists y,
      snd (Linear.forward (Linear.__init__ in_size out_size method)
                          (Mat batch in_size X)) = Ok y
      /\ Linear._cached_activations
           (fst (Linear.forward (Linear.__init__ in_size out_size method)
                                (Mat batch in_size X))) = Some y
      /\ shape_of y = Sh2 batch out_size
      /\ forall i j, (i < batch)%nat -> (j < out_size)%nat ->
           get y i j
           = contract
               (dot_plan (Sh2 batch in_size) (Sh2 in_size out_size) i j)
               (fun k => nth k (nth i X []) 0)
               (fun k => nth j (nth k W []) 0)
             + 0.
Proof.
  intros S I in_size out_size batch method W X HW.
  exists (affine in_size out_size batch W [map (fun _ => 0) (seq 0 out_size)] X).
  unfold Linear.__init__. rewrite HW.
  change (zeros (Sh2 1 out_size))
    with (Mat 1 out_size [map (fun _ : nat => 0) (seq 0 out_size)]).
  rewrite forward_affine. cbn [fst snd Linear._cached_activations].
  split; [reflexivity|]. split; [reflexivity|].
  split; [apply shape_tabulate|].
  intros i j Hi Hj. unfold affine. rewrite get_tabulate2 by assumption.
  f_equal. cbn [nth].
  exact (nth_map_seq (fun _ => 0) 0 Hj).
Qed.

End LinearMore.

Section LinearMoreWitnesses.
Open Scope float_scope.
#[local] Existing Instance Sequential.summation.
#[local] Existing Instance Scenario.fixed_weights.

(** One sample of two features through the scenario layer. *)
Lemma Linear_forward_unbatched_witness :
  length [1; 1] = 2%nat
  /\ snd (Linear.forward Scenario.dense (Vec [1; 1])) = Ok (Mat 1 1 [[3]]).
Proof.
  split; [reflexivity|].
  exact (f_equal snd
           (proj1 (@Linear_forward_unbatched Sequential.summation
                     2 1 [[1]; [2]] [[0]] [1; 1]
                     None (Mat 2 1 [[0]; [0]]) (Mat 1 1 [[0]]) eq_refl))).
Defined.

(** The scenario layer with two different histories of gradients. *)
Lemma Linear_gradients_overwritten_witness :
  is_ok (snd (Linear.backward Scenario.after_forward Scenario.error)) = true
  /\ fst (Linear.backward Scenario.after_forward Scenario.error)
     = fst (Linear.backward Scenario.after_backward Scenario.error).
Proof.
  split; [reflexivity|].
  exact (proj2 (Linear_gradients_overwritten Sequential.summation
                  (Mat 2 1 [[1]; [2]]) (Mat 1 1 [[0]])
                  (Mat 2 1 [[0]; [0]]) (Mat 1 1 [[0]])
                  (Mat 1 1 [[3]]) (Vec [1])
                  Scenario.error (Some (Mat 1 1 [[3]])))
           eq_refl).
Defined.

(** The scenario layer, after [forward] on one row, given an error of
    two columns. *)
Lemma Linear_backward_width_mismatch_witness :
  2%nat <> 1%nat
  /\ Linear.backward Scenario.after_forward (Mat 1 2 [[1; 1]])
     = (Linear.mk (Mat 2 1 [[1]; [2]]) (Mat 1 1 [[0]]) (Some (Mat 1 1 [[3]]))
                  (Mat 1 2 [[3; 3]]) (Vec [1; 1]),
        Raise ValueError).
Proof.
  assert (Hw : 2%nat <> 1%nat) by discriminate.
  split; [exact Hw|].
  exact (proj1 (@Linear_backward_width_mismatch Sequential.summation
                  2 1 1 2 [[1]; [2]] [[3]] [[1; 1]]
                  (Mat 1 1 [[0]]) (Mat 2 1 [[0]; [0]]) (Mat 1 1 [[0]]) Hw)).
Defined.

(** The scenario layer is such a constructed layer. *)
Lemma Linear_init_forward_witness :
  initialise_weights (2%nat, 1%nat) Linear.default_method
    = Mat 2 1 [[1]; [2]]
  /\ exists y,
       snd (Linear.forward (Linear.__init__ 2 1 Linear.default_method)
                           (Mat 1 2 [[1; 1]])) = Ok y
       /\ shape_of y = Sh2 1 1.
Proof.
  split; [reflexivity|].
  destruct (@Linear_init_forward Sequential.summation Scenario.fixed_weights
              2 1 1 Linear.default_method [[1]; [2]] [[1; 1]] eq_refl)
    as [y [Hy [_ [Hs _]]]].
  exists y. split; [exact Hy|exact Hs].
Defined.

End LinearMoreWitnesses.

(** ** What [forward] returns depends on the parameters alone *)

Section ForwardHistory.
Open Scope float_scope.

Lemma Linear_forward_by_parameters (S : Summation) (s s' : Linear.t)
    (x : ndarray) :
  Linear.weights s = Linear.weights s' ->
  Linear.biases s = Linear.biases s' ->
  snd (Linear.forward s x) = snd (Linear.forward s' x).
Proof.
  intros Hw Hb. unfold Linear.forward. rewrite Hw, Hb.
  destruct (xw <- dot x (Linear.weights s') ;; add xw (Linear.biases s'));
    reflexivity.
Qed.

Lemma forward_after_step (M : Libm) (S : Summation) (l : layer) (c : call)
    (x : ndarray) :
  snd (forward (step l c) x) = snd (forward l x).
Proof.
  destruct l as [s|s|s|s]; destruct c as [x'|e];
    cbn [step forward backward layer_Activation lift fst snd];
    try reflexivity.
  - apply Linear_forward_by_parameters;
      [apply (Linear_forward_frame S s x')|apply (Linear_forward_frame S s x')].
  - apply Linear_forward_by_parameters;
      [apply (Linear_backward_frame S s e)|apply (Linear_backward_frame S s e)].
Qed.

(** Whatever calls a layer has served before, returning or raising,
    [forward] returns on an input what it returns on the layer as it was
    at the start: the outcome is a function of the input and, for the
    Linear layer, of the weights and biases, never of the cache or of the
    stored gradients. *)
Theorem forward_ignores_history :
  forall (M : Libm) (S : Summation) (l : layer) (cs : list call)
         (x : ndarray),
    snd (forward (run l cs) x) = snd (forward l x).
Proof.
  intros M S l cs x. revert l.
  induction cs as [|c cs IH]; intros l; [reflexivity|].
  unfold run. cbn [fold_left]. fold (run (step l c) cs).
  rewrite IH. apply forward_after_step.
Qed.

End ForwardHistory.

(** ** The rows of a batch do not mix *)

Section Rowwise.
Open Scope float_scope.

(** Row [i] of what [Linear.forward] returns on a batch is computed from
    row [i] of the batch alone: two batches of one shape that agree on
    row [i] give results that agree on row [i], whatever their other
    rows hold. *)
Theorem Linear_forward_rowwise :
  forall (S : Summation) (in_size out_size batch : nat)
         (W B X X' : list (list float))
         (c : option ndarray) (wg bg : ndarray) (i : nat),
    (i < batch)%nat ->
    nth i X [] = nth i X' [] ->
    exists y y',
      snd (Linear.forward
             (Linear.mk (Mat in_size out_size W) (Mat 1 out_size B) c wg bg)
             (Mat batch in_size X)) = Ok y
      /\ snd (Linear.forward
                (Linear.mk (Mat in_size out_size W) (Mat 1 out_size B) c wg bg)
                (Mat batch in_size X')) = Ok y'
      /\ forall j, (j < out_size)%nat -> get y i j = get y' i j.
Proof.
  intros S in_size out_size batch W B X X' c wg bg i Hi Hrow.
  exists (affine in_size out_size batch W B X),
         (affine in_size out_size batch W B X').
  split; [now rewrite forward_affine|].
  split; [now rewrite forward_affine|].
  intros j Hj. unfold affine.
  rewrite !get_tabulate2 by assumption. now rewrite Hrow.
Qed.

End Rowwise.

Section RowwiseWitness.
Open Scope float_scope.
#[local] Existing Instance Sequential.summation.

(** Two batches through the scenario layer that share their second row. *)
Lemma Linear_forward_rowwise_witness :
  (1 < 2)%nat
  /\ nth 1 [[1; 1]; [2; 3]] [] = nth 1 [[5; 6]; [2; 3]] []
  /\ exists y y',
       snd (Linear.forward Scenario.dense (Mat 2 2 [[1; 1]; [2; 3]])) = Ok y
       /\ snd (Linear.forward Scenario.dense (Mat 2 2 [[5; 6]; [2; 3]]))
          = Ok y'
       /\ forall j, (j < 1)%nat -> get y 1 j = get y' 1 j.
Proof.
  split; [apply Nat.lt_1_2|]. split; [reflexivity|].
  exact (@Linear_forward_rowwise Sequential.summation 2 1 2
           [[1]; [2]] [[0]] [[1; 1]; [2; 3]] [[5; 6]; [2; 3]]
           None (Mat 2 1 [[0]; [0]]) (Mat 1 1 [[0]]) 1%nat
           Nat.lt_1_2 eq_refl).
Defined.

End RowwiseWitness.

(** ** The two summations differ *)

Section SummationsDiffer.
Open Scope float_scope.

(** The product of [[-1, 1e16]] with the column [0.1, 0.7] (the nearest
    binary64 values): adding the rounded products one by one gives
    7000000000000000, fusing each product into the addition gives
    6999999999999999.  Both are results that [dot] allows. *)
Fact dot_rounded_or_fused :
  @dot Sequential.summation
       (Mat 1 2 [[-1; 1e16]])
       (Mat 2 1 [[0x1.999999999999ap-4]; [0x1.6666666666666p-1]])
  = Ok (Mat 1 1 [[7000000000000000]])
  /\ @dot FusedSequential.summation
          (Mat 1 2 [[-1; 1e16]])
          (Mat 2 1 [[0x1.999999999999ap-4]; [0x1.6666666666666p-1]])
     = Ok (Mat 1 1 [[6999999999999999]]).
Proof. split; vm_compute; reflexivity. Qed.

End SummationsDiffer.
